(** * basicNode: the authentication and image-upload request pipeline

    A shallow embedding of [au.js] (routes/auth.js and middlewares/auth.js)
    and of [imageuploader/backend.js], together with the parts of the
    libraries they call (jsonwebtoken, express, express-validator, multer,
    mongoose/bson) that decide what the handlers answer.

    Conventions.
    - A JavaScript string is a Rocq [string]; its characters stand for code
      units below 256.
    - A JavaScript object used as a bag of fields (a mongoose document, the
      result of [toObject()]) is a [gmap string value].
    - A collection is the list of its documents in insertion order.
    - The wall clock, the entropy of a fresh ObjectId and the environment
      variables are explicit arguments of the handlers.
    - [await]ed calls that can reject return a [result]; [try]/[catch] is a
      [match] on it. *)

From Stdlib Require Import ZArith Ascii String List Sorting.Sorted Sorting.Permutation.
From Stdlib Require Strings.Byte Numbers.DecimalString Numbers.DecimalZ.
From stdpp Require Import base gmap strings list.

Local Open Scope Z_scope.

Abbreviation byte := Byte.byte.
Abbreviation bytes := (list Byte.byte).

#[global] Instance byte_eq_dec : EqDecision byte := Byte.byte_eq_dec.

(** ** Exceptions *)

Inductive result (E A : Type) : Type :=
| Ok (a : A)
| Throw (e : E).
Arguments Ok {E A} a.
Arguments Throw {E A} e.

(** ** JavaScript strings *)

Module JS.

(** [s.startsWith(p)] *)
Fixpoint startsWith (s p : string) {struct p} : bool :=
  match p, s with
  | EmptyString, _ => true
  | String _ _, EmptyString => false
  | String a p', String b s' => bool_decide (a = b) && startsWith s' p'
  end.

(** [s.slice(n)] for a non-negative [n]. *)
Fixpoint slice (n : nat) (s : string) : string :=
  match n, s with
  | O, _ => s
  | S n', String _ s' => slice n' s'
  | S _, EmptyString => EmptyString
  end.

(** [!s] on a string: only the empty string is falsy. *)
Definition falsy (s : string) : bool :=
  match s with
  | EmptyString => true
  | String _ _ => false
  end.

(** [!x] where [x] is a string or [undefined]. *)
Definition falsy_opt (x : option string) : bool :=
  match x with
  | None => true
  | Some s => falsy s
  end.

(** [x || d] where [x] is a string or [undefined]. *)
Definition or_else (x : option string) (d : string) : string :=
  match x with
  | None => d
  | Some s => if falsy s then d else s
  end.

(** White space and line terminators among the code units below 256:
    U+0009..U+000D, U+0020 and U+00A0. *)
Definition is_white (c : ascii) : bool :=
  match c with
  | "009" | "010" | "011" | "012" | "013" | " " | "160" => true
  | _ => false
  end%char.

Fixpoint trimStart (s : string) : string :=
  match s with
  | EmptyString => EmptyString
  | String c s' => if is_white c then trimStart s' else s
  end.

Fixpoint trimEnd (s : string) : string :=
  match s with
  | EmptyString => EmptyString
  | String c s' =>
      match trimEnd s' with
      | EmptyString => if is_white c then EmptyString else String c EmptyString
      | t => String c t
      end
  end.

(** [s.trim()] *)
Definition trim (s : string) : string := trimEnd (trimStart s).

(** [s.split(sep)] for a one-character separator: never the empty list. *)
Fixpoint split (sep : ascii) (s : string) : list string :=
  match s with
  | EmptyString => [EmptyString]
  | String c s' =>
      if decide (c = sep) then EmptyString :: split sep s'
      else match split sep s' with
           | [] => [String c EmptyString]
           | x :: xs => String c x :: xs
           end
  end.

(** All characters of [s] satisfy [p]. *)
Fixpoint all_chars (p : ascii -> bool) (s : string) : bool :=
  match s with
  | EmptyString => true
  | String c s' => p c && all_chars p s'
  end.

(** An [Error] object: what is thrown, caught, or handed to [next]. *)
Record error : Type := Error {
  err_name : string;
  err_message : string;
  err_code : option string;
  err_status : option Z
}.

End JS.

(** ** Documents and HTTP responses *)

(** A field of a stored document. [VImage] is the nested [image] path of
    the profile schema: [{ data: Buffer, contentType: String }], either of
    which may be unset. *)
Inductive value : Type :=
| VStr (s : string)
| VNum (z : Z)
| VDate (t : Z)
| VId (o : bytes)
| VImage (data : option bytes) (contentType : option string).

#[global] Instance value_eq_dec : EqDecision value.
Proof. solve_decision. Defined.

Abbreviation doc := (gmap string value).

Local Unset Elimination Schemes.

(** What [res.json] serialises. An object literal keeps its keys in order. *)
Inductive jval : Type :=
| JBool (b : bool)
| JNum (z : Z)
| JStr (s : string)
| JDate (t : Z)
| JDoc (d : doc)
| JArr (l : list jval)
| JObj (kv : list (string * jval)).

Local Set Elimination Schemes.

Inductive payload : Type :=
| Json (j : jval)          (* res.json(...) *)
| Raw (b : bytes)          (* res.send(buffer) *)
| ErrorPage (e : JS.error). (* the page the default error handler writes for e *)

(** An answer. [headers] are those a handler sets itself with [res.set];
    what Express adds on its own to every answer is left out. *)
Record response : Type := Response {
  status : Z;
  headers : list (string * string);
  body : payload
}.

(** [res.status(code).json(obj)] *)
Definition json (code : Z) (kv : list (string * jval)) : response :=
  {| status := code; headers := []; body := Json (JObj kv) |}.

Module Express.

(** What a middleware does with a request: answer it, hand it on with what
    it attached to the request, or hand an error on. *)
Inductive outcome (U : Type) : Type :=
| Respond (r : response)
| Next (u : U)
| NextErr (e : JS.error).
Arguments Respond {U} r.
Arguments Next {U} u.
Arguments NextErr {U} e.

(** The default error handler: [err.status] when it is a 4xx or 5xx
    code, else 500. *)
Definition getErrorStatusCode (e : JS.error) : Z :=
  match JS.err_status e with
  | Some c => if (400 <=? c) && (c <? 600) then c else 500
  | None => 500
  end.

Definition finalhandler (e : JS.error) : response :=
  {| status := getErrorStatusCode e; headers := []; body := ErrorPage e |}.

(** [router.METHOD(path, mw, handler)]: [handler] takes two arguments, so
    it is skipped when [mw] hands an error on, and the error reaches the
    default error handler. [S] is the state the handler may change. *)
Definition route {U S : Type} (mw : outcome U)
    (handler : U -> S -> response * S) (s : S) : response * S :=
  match mw with
  | Respond r => (r, s)
  | Next u => handler u s
  | NextErr e => (finalhandler e, s)
  end.

(** [mime.charsets.lookup]: UTF-8 for what matches
    [/^text\/|^application\/(javascript|json)/]. *)
Definition charsets_lookup (type : string) : option string :=
  if JS.startsWith type "text/"
     || JS.startsWith type "application/javascript"
     || JS.startsWith type "application/json"
  then Some "UTF-8" else None.

(** [/\s*charset\s*=/] matched at the start of [s]. *)
Definition charset_here (s : string) : bool :=
  let s1 := JS.trimStart s in
  JS.startsWith s1 "charset" && JS.startsWith (JS.trimStart (JS.slice 7 s1)) "=".

(** [/;\s*charset\s*=/.test(s)] *)
Fixpoint charsetRegExp_test (s : string) : bool :=
  match s with
  | EmptyString => false
  | String c s' =>
      (if decide (c = ";"%char) then charset_here s' else false)
      || charsetRegExp_test s'
  end.

(** The value [res.set('Content-Type', val)] stores (Express 4):
    [String(val)], with a charset parameter added for textual types that
    carry none. *)
Definition content_type_value (val : option string) : string :=
  let value := default "undefined" val in
  if charsetRegExp_test value then value
  else match charsets_lookup (hd EmptyString (JS.split ";" value)) with
       | Some charset => value +:+ "; charset=utf-8"
       | None => value
       end.

End Express.

(** ** jsonwebtoken

    The compact serialisation and the checks of [jwt.sign] and
    [jwt.verify] are written out; the byte-level primitives under them
    (base64url of the JSON text, the HMAC, the [ms] time-span parser) are
    an interface. *)

Module Jwt.

Inductive alg : Type := HS256 | HS384 | HS512 | RS256 | none.

#[global] Instance alg_eq_dec : EqDecision alg.
Proof. solve_decision. Defined.

(** The payload object of a token of this application: [{ id, email }]
    as given to [signToken], with [iat] and [exp] added by [jwt.sign].
    [exp] is absent from a token signed without [expiresIn]. *)
Record claims : Type := Claims {
  sub_id : string;
  sub_email : string;
  iat : Z;
  exp : option Z
}.

Inductive error : Type :=
| JsonWebTokenError (message : string)
| TokenExpiredError (expiredAt : Z)
| OptionError (message : string).

(** The characters of base64url. *)
Definition b64url_char (c : ascii) : bool :=
  let n := N_of_ascii c in
  ((65 <=? n) && (n <=? 90) || (97 <=? n) && (n <=? 122)
   || (48 <=? n) && (n <=? 57) || (n =? 45) || (n =? 95))%N.

Definition b64url (s : string) : bool := JS.all_chars b64url_char s.

(** base64url of [{"alg":"HS256","typ":"JWT"}], the header [jwt.sign]
    writes for a string secret. *)
Definition jose_header : string := "eyJhbGciOiJIUzI1NiIsInR5cCI6IkpXVCJ9".

Class Primitives : Type := {
  (** base64url of the JSON text of a payload, and back *)
  enc_payload : claims -> string;
  dec_payload : string -> option claims;
  (** the [alg] of a base64url-encoded JSON header *)
  dec_header : string -> option alg;
  (** the base64url-encoded HMAC of a signing input under a secret *)
  mac : alg -> string -> string -> string;
  (** [ms(str)]: a time span in milliseconds, [None] for [undefined] *)
  ms : string -> option Z;

  dec_enc_payload : forall c, dec_payload (enc_payload c) = Some c;
  enc_payload_b64url : forall c, b64url (enc_payload c) = true;
  enc_payload_nonempty : forall c, enc_payload c <> EmptyString;
  dec_jose_header : dec_header jose_header = Some HS256;
  mac_b64url : forall a k m, b64url (mac a k m) = true;
  mac_nonempty : forall a k m, mac a k m <> EmptyString;
  ms_1d : ms "1d" = Some 86400000
}.

Section WithPrimitives.
Context `{Primitives}.

(** [jws.sign]: the compact serialisation of a payload under key [k]. *)
Definition compact (c : claims) (k : string) : string :=
  let input := jose_header +:+ "." +:+ enc_payload c in
  input +:+ "." +:+ mac HS256 k input.

(** [jwt.sign(payload, secret, { expiresIn })] at clock [now] (seconds):
    [iat = now], [exp = floor(now + ms(expiresIn) / 1000)]. *)
Definition sign (id email : string) (secret : option string)
    (expiresIn : string) (now : Z) : result error string :=
  if JS.falsy_opt secret
  then Throw (OptionError "secretOrPrivateKey must have a value")
  else match ms expiresIn with
       | None => Throw (OptionError "expiresIn should be a number of seconds or string representing a timespan")
       | Some span =>
           Ok (compact {| sub_id := id; sub_email := email;
                          iat := now; exp := Some (now + span / 1000) |}
                 (default EmptyString secret))
       end.

(** The shape [jws.decode] accepts:
    [/^[a-zA-Z0-9\-_]+?\.[a-zA-Z0-9\-_]+?\.([a-zA-Z0-9\-_]+)?$/]. *)
Definition isValidJws (h p s : string) : bool :=
  b64url h && negb (JS.falsy h) && b64url p && negb (JS.falsy p) && b64url s.

(** [jwt.verify(token, secret)] at clock [now] (seconds), without
    options: the algorithms allowed for a string secret are the HMAC
    ones, and [exp] is the only time claim this application writes. *)
Definition verify (token : string) (secret : option string) (now : Z)
    : result error claims :=
  if JS.falsy token then Throw (JsonWebTokenError "jwt must be provided")
  else match JS.split "." token with
  | [h; p; s] =>
      if negb (isValidJws h p s) then Throw (JsonWebTokenError "invalid token")
      else match dec_header h, dec_payload p with
      | Some a, Some c =>
          if JS.falsy (JS.trim s)
          then Throw (JsonWebTokenError "jwt signature is required")
          else if JS.falsy_opt secret
          then Throw (JsonWebTokenError "secret or public key must be provided")
          else if negb (bool_decide (a ∈ [HS256; HS384; HS512]))
          then Throw (JsonWebTokenError "invalid algorithm")
          else if negb (bool_decide
                    (mac a (default EmptyString secret) (h +:+ "." +:+ p) = s))
          then Throw (JsonWebTokenError "invalid signature")
          else match exp c with
               | Some e => if e <=? now then Throw (TokenExpiredError e) else Ok c
               | None => Ok c
               end
      | _, _ => Throw (JsonWebTokenError "invalid token")
      end
  | _ => Throw (JsonWebTokenError "jwt malformed")
  end.

End WithPrimitives.

End Jwt.

(** ** bson ObjectId *)

Module ObjectId.

(** The lower-case digit of [n < 16], and the value of a digit of either
    case, by character code. *)
Definition hex_digit (n : N) : ascii :=
  ascii_of_N (if n <? 10 then 48 + n else 87 + n)%N.

Definition hex_value (c : ascii) : option N :=
  let n := N_of_ascii c in
  if ((48 <=? n) && (n <=? 57))%N then Some (n - 48)%N
  else if ((97 <=? n) && (n <=? 102))%N then Some (n - 87)%N
  else if ((65 <=? n) && (n <=? 70))%N then Some (n - 55)%N
  else None.

Definition is_hex (c : ascii) : bool :=
  match hex_value c with Some _ => true | None => false end.

Definition byte_of_N (n : N) : byte := default Byte.x00 (Byte.of_N n).

(** [id.toHexString()], which is also the JSON form of an id. *)
Fixpoint toHexString (o : bytes) : string :=
  match o with
  | [] => EmptyString
  | b :: o' =>
      String (hex_digit (Byte.to_N b / 16))
        (String (hex_digit (Byte.to_N b mod 16)) (toHexString o'))
  end.

Fixpoint fromHex (s : string) : option bytes :=
  match s with
  | EmptyString => Some []
  | String h (String l s') =>
      match hex_value h, hex_value l, fromHex s' with
      | Some x, Some y, Some o => Some (byte_of_N (16 * x + y) :: o)
      | _, _, _ => None
      end
  | String _ EmptyString => None
  end.

(** [mongoose.Types.ObjectId.isValid(s)] on a string (bson 6): it
    matches [/^[0-9a-fA-F]{24}$/]. *)
Definition isValid (s : string) : bool :=
  bool_decide (String.length s = 24%nat) && JS.all_chars is_hex s.

(** The cast of a string to an ObjectId, as a query on [_id] does it. *)
Definition cast (s : string) : option bytes :=
  if isValid s then fromHex s else None.

(** The [k] low bytes of [n], most significant first. *)
Fixpoint be_bytes (k : nat) (n : N) : bytes :=
  match k with
  | O => []
  | S k' => be_bytes k' (n / 256) ++ [byte_of_N (n mod 256)]
  end.

(** A fresh id: four bytes of the time in seconds, five random bytes and
    a three-byte counter. *)
Definition generate (seconds : Z) (rand counter : N) : bytes :=
  be_bytes 4 (Z.to_N seconds) ++ be_bytes 5 rand ++ be_bytes 3 counter.

End ObjectId.

(** What a request handler reads from outside the request: the clock
    ([Date.now()], in milliseconds) and the entropy of a fresh ObjectId. *)
Record Sys : Type := {
  now : Z;
  rand : N;
  counter : N
}.

(** ** mongoose collections *)

Module Mongoose.

Definition CastError (v : string) : JS.error :=
  {| JS.err_name := "CastError";
     JS.err_message := "Cast to ObjectId failed for value " +:+ v;
     JS.err_code := None; JS.err_status := None |}.

Definition DuplicateKey : JS.error :=
  {| JS.err_name := "MongoServerError";
     JS.err_message := "E11000 duplicate key error";
     JS.err_code := Some "11000"; JS.err_status := None |}.

Definition ValidationError (path : string) : JS.error :=
  {| JS.err_name := "ValidationError";
     JS.err_message := "Path " +:+ path +:+ " is required.";
     JS.err_code := None; JS.err_status := None |}.

Definition has_id (o : bytes) (d : doc) : bool :=
  bool_decide (d !! "_id" = Some (VId o)).

(** [Model.findById(id)] with a string [id]: the cast comes first. *)
Definition findById (c : list doc) (id : string) : result JS.error (option doc) :=
  match ObjectId.cast id with
  | None => Throw (CastError id)
  | Some o => Ok (List.find (has_id o) c)
  end.

(** [Model.findOne({ k: v })] for a string [v] *)
Definition findOne (c : list doc) (k v : string) : option doc :=
  List.find (fun d => bool_decide (d !! k = Some (VStr v))) c.

(** The insert behind [save()] and [create()] of a new document [d]
    whose generated id is [o]: [_id] is unique in a collection. It
    answers the stored document and the collection after the write. *)
Definition insert (c : list doc) (o : bytes) (d : doc)
    : result JS.error (doc * list doc) :=
  if existsb (has_id o) c then Throw DuplicateKey
  else let d' := <["_id" := VId o]> d in Ok (d', c ++ [d']).

Definition fresh_id (sys : Sys) : bytes :=
  ObjectId.generate (now sys / 1000) (rand sys) (counter sys).

(** [d[k]] read as a string, [d._id] read as its hex string. *)
Definition str_field (d : doc) (k : string) : string :=
  match d !! k with Some (VStr s) => s | _ => EmptyString end.

Definition id_field (d : doc) : string :=
  match d !! "_id" with Some (VId o) => ObjectId.toHexString o | _ => EmptyString end.

(** The JSON form of a field; the handlers never serialise an image. *)
Definition to_json (v : value) : jval :=
  match v with
  | VStr s => JStr s
  | VNum z => JNum z
  | VDate t => JDate t
  | VId o => JStr (ObjectId.toHexString o)
  | VImage _ ct =>
      JObj (match ct with Some t => [("contentType", JStr t)] | None => [] end)
  end.

(** The entry [key: d[k]] of an object literal; [JSON.stringify] leaves
    an [undefined] property out. *)
Definition prop (key : string) (d : doc) (k : string) : list (string * jval) :=
  match d !! k with
  | Some v => [(key, to_json v)]
  | None => []
  end.

End Mongoose.

(** ** au.js: routes/auth.js and middlewares/auth.js *)

Module Auth.

(** [process.env] *)
Record Env : Type := {
  JWT_SECRET : option string;
  JWT_EXPIRES : option string
}.

(** [req.body] of the two JSON routes: a field is a string or absent. *)
Record Body : Type := {
  name : option string;
  email : option string;
  password : option string
}.

(** express-validator's [isEmail()] (validator.js). *)
Class Validator : Type := {
  isEmail : string -> bool
}.

(** Modelled from the spec: [models/User] is not among the sources. The
    account has a unique id, a name, an email and a password credential
    that is stored one-way hashed; [matchPassword] compares a candidate
    with the stored credential. *)
Class UserModel : Type := {
  hashPassword : string -> string;
  matchPassword : string -> string -> bool
}.

Definition Message (code : Z) (isError : bool) (m : string) : response :=
  json code [("isError", JBool isError); ("Message", JStr m)].

(** One entry of [errors.array()]: the message, the field and where it
    was read; the entry's echo of the submitted value is left out. *)
Definition validation_error (path msg : string) : jval :=
  JObj [("msg", JStr msg); ("path", JStr path); ("location", JStr "body")].

Definition check (ok : bool) (path msg : string) : list jval :=
  if ok then [] else [validation_error path msg].

(** The token the gate takes from [req.headers.authorization], set apart
    from [auth] below for the statements about it. *)
Definition bearer (authorization : option string) : string :=
  let header := JS.or_else authorization EmptyString in
  if JS.startsWith header "Bearer " then JS.slice 7 header else header.

Section Routes.
Context `{Jwt.Primitives} `{Validator} `{UserModel}.

(** [signToken(payload)] with [payload = { id, email }] *)
Definition signToken (env : Env) (sys : Sys) (id email : string)
    : result Jwt.error string :=
  Jwt.sign id email (JWT_SECRET env)
    (JS.or_else (JWT_EXPIRES env) "1d") (now sys / 1000).

(** Modelled from the spec: [User.create({ name, email, password })]
    of the absent [models/User]; the password is stored hashed. *)
Definition User_create (sys : Sys) (n e p : string) (users : list doc)
    : result JS.error (doc * list doc) :=
  Mongoose.insert users (Mongoose.fresh_id sys)
    {[ "name" := VStr n; "email" := VStr e;
       "password" := VStr (hashPassword p) ]}.

(** [POST /signup] *)
Definition signup (env : Env) (sys : Sys) (b : Body) (users : list doc)
    : response * list doc :=
  (* .trim() is a sanitizer: it rewrites req.body.name *)
  let n := JS.trim (default EmptyString (name b)) in
  let e := default EmptyString (email b) in
  let p := default EmptyString (password b) in
  let errors :=
    check (negb (JS.falsy n)) "name" "Name is required"
    ++ check (isEmail e) "email" "Valid email required"
    ++ check (bool_decide (6 <= String.length p)%nat) "password" "Min 6 chars password" in
  match errors with
  | _ :: _ => (json 400 [("isError", JBool true); ("errors", JArr errors)], users)
  | [] =>
      match Mongoose.findOne users "email" e with
      | Some _ => (Message 409 true "Email already in use", users)
      | None =>
          match User_create sys n e p users with
          | Throw _ => (Message 500 true "Internal server error", users)
          | Ok (user, users') =>
              match signToken env sys (Mongoose.id_field user) (Mongoose.str_field user "email") with
              | Throw _ => (Message 500 true "Internal server error", users')
              | Ok token =>
                  (* const { password: _, ...userSafe } = user.toObject() *)
                  let userSafe := delete "password" user in
                  (json 201 [("isError", JBool false);
                             ("Message", JStr "User created");
                             ("token", JStr token);
                             ("user", JDoc userSafe)], users')
              end
          end
      end
  end.

(** [POST /login]; it writes nothing. *)
Definition login (env : Env) (sys : Sys) (b : Body) (users : list doc)
    : response :=
  let e := default EmptyString (email b) in
  let p := default EmptyString (password b) in
  let errors :=
    check (isEmail e) "email" "Valid email required"
    ++ check (negb (JS.falsy p)) "password" "Password required" in
  match errors with
  | _ :: _ => json 400 [("isError", JBool true); ("errors", JArr errors)]
  | [] =>
      match Mongoose.findOne users "email" e with
      | None => Message 401 true "Invalid credentials"
      | Some user =>
          if negb (matchPassword (Mongoose.str_field user "password") p)
          then Message 401 true "Invalid credentials"
          else
            match signToken env sys (Mongoose.id_field user) (Mongoose.str_field user "email") with
            | Throw _ => Message 500 true "Internal server error"
            | Ok token =>
                let userSafe := delete "password" user in
                json 200 [("isError", JBool false);
                          ("Message", JStr "Login success");
                          ("token", JStr token);
                          ("user", JDoc userSafe)]
            end
      end
  end.

(** [middlewares/auth.js]; [authorization] is
    [req.headers.authorization], and what [Next] carries is [req.user]. *)
Definition auth (env : Env) (sys : Sys) (authorization : option string)
    : Express.outcome Jwt.claims :=
  let header := JS.or_else authorization EmptyString in
  let token := if JS.startsWith header "Bearer " then JS.slice 7 header else header in
  if JS.falsy token then Express.Respond (Message 401 true "No token provided")
  else match Jwt.verify token (JWT_SECRET env) (now sys / 1000) with
       | Ok decoded => Express.Next decoded
       | Throw _ => Express.Respond (Message 401 true "Invalid/Expired token")
       end.

(** The handler of [GET /me], behind the gate. *)
Definition me_handler (user : Jwt.claims) (users : list doc) : response * list doc :=
  match Mongoose.findById users (Jwt.sub_id user) with
  | Throw _ => (Message 500 true "Internal server error", users)
  | Ok None => (Message 404 true "User not found", users)
  | Ok (Some u) =>
      (json 200 [("isError", JBool false); ("user", JDoc (delete "password" u))], users)
  end.

(** [router.get("/me", auth, handler)] *)
Definition me (env : Env) (sys : Sys) (authorization : option string)
    (users : list doc) : response * list doc :=
  Express.route (auth env sys authorization) me_handler users.

End Routes.

End Auth.

(** ** multer, memory storage *)

Module Multer.

(** A file part of a multipart form, as [req.file] shows it. *)
Record File : Type := {
  fieldname : string;
  originalname : string;
  mimetype : string;
  buffer : bytes
}.

Definition size (f : File) : Z := Z.of_nat (length (buffer f)).

(** A multipart/form-data request: its text fields and its file parts in
    the order of the form. *)
Record Form : Type := {
  fields : gmap string string;
  files : list File
}.

Record Options : Type := {
  fileSize : Z;
  fileFilter : File -> result JS.error bool
}.

(** A [MulterError]; the name of the field it also carries is not kept. *)
Definition MulterError (code message fld : string) : JS.error :=
  {| JS.err_name := "MulterError"; JS.err_message := message;
     JS.err_code := Some code; JS.err_status := None |}.

Definition LIMIT_FILE_SIZE (fld : string) : JS.error :=
  MulterError "LIMIT_FILE_SIZE" "File too large" fld.

Definition LIMIT_UNEXPECTED_FILE (fld : string) : JS.error :=
  MulterError "LIMIT_UNEXPECTED_FILE" "Unexpected field" fld.

(** The file parts are taken in order; [left] is how many files the
    field [field] may still receive. The first error aborts. The filter
    is asked before the bytes are read, so it is the declared type that
    decides first, and then the size: [fileSize] is the largest size that
    passes. *)
Fixpoint accept (o : Options) (field : string) (left : nat) (fs : list File)
    (kept : option File) {struct fs} : result JS.error (option File) :=
  match fs with
  | [] => Ok kept
  | f :: fs' =>
      match left with
      | S left' =>
          if negb (bool_decide (fieldname f = field))
          then Throw (LIMIT_UNEXPECTED_FILE (fieldname f))
          else match fileFilter o f with
               | Throw e => Throw e
               | Ok false => accept o field left' fs' kept
               | Ok true =>
                   if fileSize o <? size f
                   then Throw (LIMIT_FILE_SIZE (fieldname f))
                   else accept o field left' fs' (Some f)
               end
      | O => Throw (LIMIT_UNEXPECTED_FILE (fieldname f))
      end
  end.

(** [multer(o).single(field)]: on success [req.body] holds the text
    fields and [req.file] the one accepted file, if any. *)
Definition single (o : Options) (field : string) (req : Form)
    : Express.outcome (gmap string string * option File) :=
  match accept o field 1 (files req) None with
  | Ok file => Express.Next (fields req, file)
  | Throw e => Express.NextErr e
  end.

End Multer.

(** ** imageuploader/backend.js *)

Module Backend.

Record Env : Type := {
  NODE_ENV : option string
}.

Definition fileFilter (file : Multer.File) : result JS.error bool :=
  if JS.startsWith (Multer.mimetype file) "image/" then Ok true
  else Throw {| JS.err_name := "Error";
                JS.err_message := "Only image files are allowed!";
                JS.err_code := None; JS.err_status := None |}.

Definition upload : Multer.Options :=
  {| Multer.fileSize := 5 * 1024 * 1024;   (* 5MB limit *)
     Multer.fileFilter := fileFilter |}.

(** [userSchema]: the three strings are trimmed and required. *)
Definition required_paths (n m a : string) : list string :=
  (if JS.falsy n then ["name"] else [])
  ++ (if JS.falsy m then ["mobile"] else [])
  ++ (if JS.falsy a then ["address"] else []).

(** [new User({ name, mobile, address, image }).save()]: the schema
    casts and validates, [timestamps: true] stamps the document. *)
Definition User_save (sys : Sys) (n m a : string) (file : Multer.File)
    (users : list doc) : result JS.error (doc * list doc) :=
  let n := JS.trim n in
  let m := JS.trim m in
  let a := JS.trim a in
  match required_paths n m a with
  | path :: _ => Throw (Mongoose.ValidationError path)
  | [] =>
      Mongoose.insert users (Mongoose.fresh_id sys)
        {[ "name" := VStr n; "mobile" := VStr m; "address" := VStr a;
           "image" := VImage (Some (Multer.buffer file)) (Some (Multer.mimetype file));
           "createdAt" := VDate (now sys); "updatedAt" := VDate (now sys);
           "__v" := VNum 0 ]}
  end.

Definition failure (code : Z) (m : string) : response :=
  json code [("success", JBool false); ("message", JStr m)].

Definition internal_error (detail : string) : response :=
  json 500 [("success", JBool false); ("message", JStr "Internal server error");
            ("error", JStr detail)].

(** The handler of [POST /users], behind [upload.single('image')]. *)
Definition post_users_handler (sys : Sys)
    (req : gmap string string * option Multer.File) (users : list doc)
    : response * list doc :=
  let name := req.1 !! "name" in
  let mobile := req.1 !! "mobile" in
  let address := req.1 !! "address" in
  if JS.falsy_opt name || JS.falsy_opt mobile || JS.falsy_opt address
  then (failure 400 "Name, mobile, and address are required", users)
  else match req.2 with
  | None => (failure 400 "Image is required", users)
  | Some file =>
      match User_save sys (default EmptyString name) (default EmptyString mobile)
              (default EmptyString address) file users with
      | Throw error => (internal_error (JS.err_message error), users)
      | Ok (savedUser, users') =>
          (json 201 [("success", JBool true);
                     ("message", JStr "User created successfully");
                     ("data", JObj (Mongoose.prop "id" savedUser "_id"
                                    ++ Mongoose.prop "name" savedUser "name"
                                    ++ Mongoose.prop "mobile" savedUser "mobile"
                                    ++ Mongoose.prop "address" savedUser "address"
                                    ++ Mongoose.prop "createdAt" savedUser "createdAt"))],
           users')
      end
  end.

(** [router.post('/users', upload.single('image'), handler)] on a
    multipart request. *)
Definition post_users (sys : Sys) (req : Multer.Form) (users : list doc)
    : response * list doc :=
  Express.route (Multer.single upload "image" req) (post_users_handler sys) users.

(** The sort key of [createdAt]; a document without the field sorts as
    [null], below every date. *)
Definition createdAt (d : doc) : option Z :=
  match d !! "createdAt" with Some (VDate t) => Some t | _ => None end.

Definition key_le (a b : option Z) : bool :=
  match a, b with
  | None, _ => true
  | Some _, None => false
  | Some x, Some y => x <=? y
  end.

(** [.sort({ createdAt: -1 })] *)
Fixpoint insert_desc (d : doc) (l : list doc) : list doc :=
  match l with
  | [] => [d]
  | x :: l' =>
      if key_le (createdAt x) (createdAt d) then d :: x :: l'
      else x :: insert_desc d l'
  end.

Definition sort_desc (l : list doc) : list doc := foldr insert_desc [] l.


(** [User.find({}, '-image').sort({ createdAt: -1 })] *)
Definition find_all (users : list doc) : list doc :=
  sort_desc (map (delete "image") users).


(** [GET /users/:id] *)
Definition get_user (users : list doc) (id : string) : response :=
  match Mongoose.findById users id with
  | Throw error => internal_error (JS.err_message error)
  | Ok None => failure 404 "User not found"
  | Ok (Some user) =>
      json 200 [("success", JBool true); ("data", JDoc (delete "image" user))]
  end.

(** [user.image.data] and [user.image.contentType] *)
Definition image_data (user : doc) : option bytes :=
  match user !! "image" with Some (VImage data _) => data | _ => None end.

Definition image_contentType (user : doc) : option string :=
  match user !! "image" with Some (VImage _ ct) => ct | _ => None end.

(** [GET /users/:id/image] *)
Definition get_user_image (env : Env) (users : list doc) (id : string) : response :=
  if negb (ObjectId.isValid id) then failure 400 "Invalid user ID format"
  else match Mongoose.findById users id with
  | Throw error =>
      internal_error (if bool_decide (NODE_ENV env = Some "development")
                      then JS.err_message error else "Something went wrong")
  | Ok None => failure 404 "Image not found"
  | Ok (Some user) =>
      match image_data user with
      | None => failure 404 "Image not found"
      | Some data =>
          {| status := 200;
             headers := [("Content-Type",
                          Express.content_type_value (image_contentType user))];
             body := Raw data |}
      end
  end.

(** What the client reads back from the 201 body: [data.id]. *)
Definition jget (k : string) (j : jval) : option jval :=
  match j with
  | JObj kv => snd <$> List.find (fun p => bool_decide (p.1 = k)) kv
  | _ => None
  end.

Definition created_id (r : response) : option string :=
  match body r with
  | Json j =>
      match jget "data" j ≫= jget "id" with
      | Some (JStr s) => Some s
      | _ => None
      end
  | _ => None
  end.

End Backend.


(** ** An instance of the library interfaces

    Hexadecimal text stands for base64url of JSON, a keyed digest without
    any strength for the HMAC, and [ms] knows two spans. The instance shows
    that the laws of [Jwt.Primitives] can be met and lets the handlers be
    evaluated on examples. *)

Module Plain.

Definition hexs (s : string) : string :=
  ObjectId.toHexString (String.list_byte_of_string s).

Definition unhexs (t : string) : option string :=
  String.string_of_list_byte <$> ObjectId.fromHex t.

Definition num (z : Z) : string :=
  hexs (DecimalString.NilEmpty.string_of_int (Z.to_int z)).

Definition unnum (t : string) : option Z :=
  match unhexs t with
  | Some d => Z.of_int <$> DecimalString.NilEmpty.int_of_string d
  | None => None
  end.

Definition enc_exp (e : option Z) : string :=
  match e with
  | Some z => String "S" (num z)
  | None => EmptyString
  end.

Definition dec_exp (t : string) : option (option Z) :=
  match t with
  | EmptyString => Some None
  | String c t' => if decide (c = "S"%char) then Some <$> unnum t' else None
  end.

Definition enc_payload (c : Jwt.claims) : string :=
  hexs (Jwt.sub_id c) +:+ "_" +:+ hexs (Jwt.sub_email c) +:+ "_"
  +:+ num (Jwt.iat c) +:+ "_" +:+ enc_exp (Jwt.exp c).

Definition dec_payload (t : string) : option Jwt.claims :=
  match JS.split "_" t with
  | [a; b; c; d] =>
      match unhexs a, unhexs b, unnum c, dec_exp d with
      | Some i, Some e, Some t0, Some x =>
          Some {| Jwt.sub_id := i; Jwt.sub_email := e; Jwt.iat := t0; Jwt.exp := x |}
      | _, _, _, _ => None
      end
  | _ => None
  end.

(** The characters of the fields of an encoded payload. *)
Definition field_char (c : ascii) : bool :=
  ObjectId.is_hex c || bool_decide (c = "S"%char).

Definition dec_header (h : string) : option Jwt.alg :=
  if decide (h = Jwt.jose_header) then Some Jwt.HS256 else None.

Definition mac (a : Jwt.alg) (k m : string) : string :=
  String "s" (hexs (k +:+ "|" +:+ m)).

Definition ms (s : string) : option Z :=
  if decide (s = "1d") then Some 86400000
  else if decide (s = "1h") then Some 3600000
  else None.

(** An address with an at sign between two non-empty parts. *)
Definition isEmail (s : string) : bool :=
  match JS.split "@" s with
  | [a; b] => negb (JS.falsy a) && negb (JS.falsy b)
  | _ => false
  end.

Definition hashPassword (p : string) : string := "h:" +:+ hexs p.

Definition matchPassword (stored candidate : string) : bool :=
  bool_decide (stored = hashPassword candidate).

End Plain.

(** ** Sample inputs *)

Module Sample.

Definition env : Auth.Env :=
  {| Auth.JWT_SECRET := Some "s3cret"; Auth.JWT_EXPIRES := None |}.

(** Three instants: a request, one a second before a day later, and one a
    day later. *)
Definition t0 : Sys := {| now := 1700000000123; rand := 77; counter := 5 |}.
Definition t1 : Sys := {| now := 1700086399123; rand := 78; counter := 6 |}.
Definition t2 : Sys := {| now := 1700086400123; rand := 79; counter := 7 |}.

Definition ann : Auth.Body :=
  {| Auth.name := Some "  Ann "; Auth.email := Some "ann@example.org";
     Auth.password := Some "123456" |}.

(** A four-byte image, a text file, and the form of the spec's scenario
    around a file. *)
Definition png : Multer.File :=
  {| Multer.fieldname := "image"; Multer.originalname := "ann.png";
     Multer.mimetype := "image/png";
     Multer.buffer := [Byte.x89; Byte.x50; Byte.x4e; Byte.x47] |}.


Definition form (fs : list Multer.File) : Multer.Form :=
  {| Multer.fields := {[ "name" := "Ann"; "mobile" := "1234567890";
                         "address" := "1 Main St" ]};
     Multer.files := fs |}.

Definition backend_env : Backend.Env := {| Backend.NODE_ENV := None |}.

End Sample.

(** ** imageuploader/frontend.js: the form's checks and what it sends *)

Module Frontend.

(** A [File] of the browser: [file.name], [file.type] and the bytes, of
    which [file.size] is the number. *)
Record File : Type := {
  file_name : string;
  type : string;
  content : bytes
}.

Definition size (f : File) : Z := Z.of_nat (length (content f)).

(** The state [formData]. *)
Record FormData : Type := {
  name : string;
  mobile : string;
  address : string
}.

Definition is_letter (c : ascii) : bool :=
  let n := N_of_ascii c in
  ((65 <=? n) && (n <=? 90) || (97 <=? n) && (n <=? 122))%N.

Definition is_digit (c : ascii) : bool :=
  let n := N_of_ascii c in ((48 <=? n) && (n <=? 57))%N.

(** [/^[a-zA-Z\s]+$/.test(s)] *)
Definition letters_and_spaces (s : string) : bool :=
  negb (JS.falsy s) && JS.all_chars (fun c => is_letter c || JS.is_white c) s.

(** [/[\s\-\+\(\)]/] *)
Definition is_separator (c : ascii) : bool :=
  JS.is_white c
  || bool_decide (c = "-"%char) || bool_decide (c = "+"%char)
  || bool_decide (c = "("%char) || bool_decide (c = ")"%char).

(** [s.replace(/[...]/g, '')] for a class of characters *)
Fixpoint remove (p : ascii -> bool) (s : string) : string :=
  match s with
  | EmptyString => EmptyString
  | String c s' => if p c then remove p s' else String c (remove p s')
  end.

(** [/^[0-9]{10,15}$/.test(s)] *)
Definition ten_to_fifteen_digits (s : string) : bool :=
  JS.all_chars is_digit s
  && bool_decide (10 <= String.length s)%nat
  && bool_decide (String.length s <= 15)%nat.

Definition validateName (name : string) : string :=
  if JS.falsy name || JS.falsy (JS.trim name) then "Name is required"
  else if bool_decide (String.length (JS.trim name) < 2)%nat
  then "Name must be at least 2 characters"
  else if bool_decide (50 < String.length (JS.trim name))%nat
  then "Name cannot exceed 50 characters"
  else if negb (letters_and_spaces (JS.trim name))
  then "Name can only contain letters and spaces"
  else EmptyString.

Definition validateMobile (mobile : string) : string :=
  if JS.falsy mobile || JS.falsy (JS.trim mobile) then "Mobile number is required"
  else
    let cleanMobile := remove is_separator mobile in
    if negb (ten_to_fifteen_digits cleanMobile)
    then "Please enter a valid mobile number (10-15 digits)"
    else EmptyString.

Definition validateAddress (address : string) : string :=
  if JS.falsy address || JS.falsy (JS.trim address) then "Address is required"
  else if bool_decide (String.length (JS.trim address) < 5)%nat
  then "Address must be at least 5 characters"
  else if bool_decide (200 < String.length (JS.trim address))%nat
  then "Address cannot exceed 200 characters"
  else EmptyString.

Definition validateImage (file : option File) : string :=
  match file with
  | None => "Image is required"
  | Some f =>
      if negb (JS.startsWith (type f) "image/") then "Only image files are allowed"
      else if 5 * 1024 * 1024 <? size f then "Image size cannot exceed 5MB"
      else EmptyString
  end.

(** [if (error) newErrors[key] = error] *)
Definition note (key error : string) (newErrors : gmap string string)
    : gmap string string :=
  if JS.falsy error then newErrors else <[key := error]> newErrors.

(** [validateForm()]: the errors it sets, and whether there are none. *)
Definition newErrors (formData : FormData) (image : option File)
    : gmap string string :=
  note "image" (validateImage image)
    (note "address" (validateAddress (address formData))
       (note "mobile" (validateMobile (mobile formData))
          (note "name" (validateName (name formData)) ∅))).

Definition validateForm (formData : FormData) (image : option File) : bool :=
  bool_decide (base.size (newErrors formData image) = 0%nat).

(** The part [formDataToSend.append('image', image)] makes of a file:
    its name is the part's file name, and its type the part's declared
    type, which is [application/octet-stream] for a file without a type. *)
Definition part (f : File) : Multer.File :=
  {| Multer.fieldname := "image"; Multer.originalname := file_name f;
     Multer.mimetype := if JS.falsy (type f) then "application/octet-stream"
                        else type f;
     Multer.buffer := content f |}.

(** [handleSubmit]: the request it posts to [/api/users], or none when
    the form does not validate. Appending [null] appends the text "null". *)
Definition handleSubmit (formData : FormData) (image : option File)
    : option Multer.Form :=
  if negb (validateForm formData image) then None
  else
    let texts : gmap string string :=
      {[ "name" := JS.trim (name formData);
         "mobile" := JS.trim (mobile formData);
         "address" := JS.trim (address formData) ]} in
    Some match image with
         | Some f => {| Multer.fields := texts; Multer.files := [part f] |}
         | None => {| Multer.fields := <["image" := "null"]> texts; Multer.files := [] |}
         end.

(** [getUserImage(userId)], without the origin: the id that reaches the
    image route is the [_id] of a listed user. *)
Definition getUserImage (user : doc) : string := Mongoose.id_field user.

End Frontend.

(** ** What a client reads in an answer, and what a collection holds *)

Module Read.

(** [body.user] and [body.token] of a JSON answer. *)
Definition user_view (r : response) : option doc :=
  match body r with
  | Json j => match Backend.jget "user" j with Some (JDoc d) => Some d | _ => None end
  | _ => None
  end.

Definition token (r : response) : option string :=
  match body r with
  | Json j => match Backend.jget "token" j with Some (JStr t) => Some t | _ => None end
  | _ => None
  end.


Definition email_of (d : doc) : option string :=
  match d !! "email" with Some (VStr s) => Some s | _ => None end.

Definition id_of (d : doc) : option bytes :=
  match d !! "_id" with Some (VId o) => Some o | _ => None end.


Definition unique_ids (users : list doc) : Prop := NoDup (omap id_of users).

(** The three checks of the signup body. *)
Definition signup_valid `{Auth.Validator} (b : Auth.Body) : Prop :=
  JS.trim (default EmptyString (Auth.name b)) <> EmptyString
  /\ Auth.isEmail (default EmptyString (Auth.email b)) = true
  /\ (6 <= String.length (default EmptyString (Auth.password b)))%nat.

(** The account a signup at [sys] stores for a name, an email and a
    password, and the profile an ingest at [sys] stores for three texts
    and a file. *)
Definition account `{Auth.UserModel} (sys : Sys) (n e p : string) : doc :=
  <["_id" := VId (Mongoose.fresh_id sys)]>
    {[ "name" := VStr n; "email" := VStr e;
       "password" := VStr (Auth.hashPassword p) ]}.

Definition profile (sys : Sys) (n m a : string) (file : Multer.File) : doc :=
  <["_id" := VId (Mongoose.fresh_id sys)]>
    {[ "name" := VStr n; "mobile" := VStr m; "address" := VStr a;
       "image" := VImage (Some (Multer.buffer file)) (Some (Multer.mimetype file));
       "createdAt" := VDate (now sys); "updatedAt" := VDate (now sys);
       "__v" := VNum 0 ]}.

(** The 201 of [POST /users] for a saved profile. *)
Definition created (saved : doc) : response :=
  json 201 [("success", JBool true);
            ("message", JStr "User created successfully");
            ("data", JObj (Mongoose.prop "id" saved "_id"
                           ++ Mongoose.prop "name" saved "name"
                           ++ Mongoose.prop "mobile" saved "mobile"
                           ++ Mongoose.prop "address" saved "address"
                           ++ Mongoose.prop "createdAt" saved "createdAt"))].

(** The collections that ingests alone build from the empty one. *)
Inductive ingested : list doc -> Prop :=
| ingested_nil : ingested []
| ingested_post sys req users :
    ingested users -> ingested (Backend.post_users sys req users).2.

End Read.

(** ** Further sample inputs *)

Module Scene.

(** Environments without a signing secret and with another one. *)
Definition no_secret : Auth.Env :=
  {| Auth.JWT_SECRET := None; Auth.JWT_EXPIRES := None |}.

Definition other_secret : Auth.Env :=
  {| Auth.JWT_SECRET := Some "other"; Auth.JWT_EXPIRES := None |}.

(** A signup body without a name, and Ann's login. *)
Definition nameless : Auth.Body :=
  {| Auth.name := None; Auth.email := Some "ann@example.org";
     Auth.password := Some "123456" |}.

Definition ann_login : Auth.Body :=
  {| Auth.name := None; Auth.email := Some "ann@example.org";
     Auth.password := Some "123456" |}.

(** The id generated at [Sample.t0], and the profile Ann's form stores
    then. *)
Definition id0 : string := "6553f100000000004d000005".

Definition ann_profile : doc :=
  Read.profile Sample.t0 "Ann" "1234567890" "1 Main St" Sample.png.


(** What Ann types into the page, and the file she picks. *)
Definition typed : Frontend.FormData :=
  {| Frontend.name := " Ann Lee "; Frontend.mobile := "+1 (234) 567-8901";
     Frontend.address := "1 Main St" |}.

Definition photo : Frontend.File :=
  {| Frontend.file_name := "ann.png"; Frontend.type := "image/png";
     Frontend.content := [Byte.x89; Byte.x50; Byte.x4e; Byte.x47] |}.

Definition posted : Multer.Form :=
  {| Multer.fields := {[ "name" := "Ann Lee"; "mobile" := "+1 (234) 567-8901";
                         "address" := "1 Main St" ]};
     Multer.files := [Frontend.part photo] |}.

End Scene.

(** * Properties *)

(** ** Strings *)

Section StringFacts.

Implicit Types (s t : string) (c : ascii) (p : ascii -> bool).

Lemma app_nil_l_s s : EmptyString +:+ s = s.
Proof. reflexivity. Qed.

Lemma app_assoc_s s t u : (s +:+ t) +:+ u = s +:+ (t +:+ u).
Proof.
  induction s as [|c s IH]; [reflexivity|].
  change (String c ((s +:+ t) +:+ u) = String c (s +:+ t +:+ u)).
  by rewrite IH.
Qed.

Lemma falsy_false s : JS.falsy s = false <-> s <> EmptyString.
Proof. destruct s; split; intros; done. Qed.

Lemma falsy_app s t : JS.falsy (s +:+ t) = JS.falsy s && JS.falsy t.
Proof. destruct s; reflexivity. Qed.

Lemma all_chars_app p s t :
  JS.all_chars p (s +:+ t) = JS.all_chars p s && JS.all_chars p t.
Proof.
  induction s as [|c s IH]; [reflexivity|].
  simpl. rewrite IH. by rewrite andb_assoc.
Qed.

Lemma all_chars_impl p q s :
  (forall c, p c = true -> q c = true) ->
  JS.all_chars p s = true -> JS.all_chars q s = true.
Proof.
  intros Hpq. induction s as [|c s IH]; simpl; [done|].
  rewrite !andb_true_iff. intros [Hc Hs]. auto.
Qed.

(** A string without the separator is one piece. *)
Lemma split_one p sep s :
  p sep = false -> JS.all_chars p s = true -> JS.split sep s = [s].
Proof.
  intros Hsep. induction s as [|c s IH]; simpl; [done|].
  rewrite andb_true_iff. intros [Hc Hs].
  case_decide as E; [congruence|]. by rewrite (IH Hs).
Qed.

(** The first separator ends the first piece. *)
Lemma split_app p sep s t :
  p sep = false -> JS.all_chars p s = true ->
  JS.split sep (s +:+ String sep EmptyString +:+ t) = s :: JS.split sep t.
Proof.
  intros Hsep. change (String sep EmptyString +:+ t) with (String sep t).
  induction s as [|c s IH].
  - intros _. rewrite app_nil_l_s. simpl. by case_decide.
  - simpl. rewrite andb_true_iff. intros [Hc Hs].
    case_decide as E; [congruence|]. by rewrite (IH Hs).
Qed.

(** The first piece of a string begins with the string's first character,
    unless that is the separator. *)
Lemma split_head sep c s :
  c <> sep ->
  exists x xs, JS.split sep (String c s) = String c x :: xs.
Proof.
  intros Hc. simpl. case_decide; [done|].
  destruct (JS.split sep s) as [|x xs] eqn:E; eauto.
Qed.

Lemma trim_not_white c s :
  JS.is_white c = false -> JS.falsy (JS.trim (String c s)) = false.
Proof.
  intros Hc. unfold JS.trim. simpl. rewrite Hc. simpl.
  destruct (JS.trimEnd s); [by rewrite Hc|done].
Qed.

End StringFacts.

(** ** jsonwebtoken *)

Section JwtFacts.

Context `{Jwt.Primitives}.

Lemma b64url_not_white c : Jwt.b64url_char c = true -> JS.is_white c = false.
Proof. destruct c as [[] [] [] [] [] [] [] []]; first [reflexivity | discriminate]. Qed.

Lemma b64url_jose_header : Jwt.b64url Jwt.jose_header = true.
Proof. reflexivity. Qed.

(** The three pieces of a token made of base64url segments. *)
Lemma split_token h p s :
  Jwt.b64url h = true -> Jwt.b64url p = true -> Jwt.b64url s = true ->
  JS.split "." ((h +:+ "." +:+ p) +:+ "." +:+ s) = [h; p; s].
Proof.
  intros Hh Hp Hs. rewrite !app_assoc_s.
  rewrite !(split_app Jwt.b64url_char) by done.
  by rewrite (split_one Jwt.b64url_char).
Qed.

(** What [jwt.sign] answers when it has a secret and a time span. *)
Lemma sign_ok id email secret expiresIn span t :
  JS.falsy_opt secret = false -> Jwt.ms expiresIn = Some span ->
  Jwt.sign id email secret expiresIn t =
    Ok (Jwt.compact {| Jwt.sub_id := id; Jwt.sub_email := email;
                       Jwt.iat := t; Jwt.exp := Some (t + span / 1000) |}
          (default EmptyString secret)).
Proof. intros Hs Hm. unfold Jwt.sign. by rewrite Hs, Hm. Qed.

Lemma compact_header c k :
  Jwt.compact c k =
    Jwt.jose_header +:+ "." +:+ Jwt.enc_payload c +:+ "." +:+
      Jwt.mac Jwt.HS256 k (Jwt.jose_header +:+ "." +:+ Jwt.enc_payload c).
Proof. unfold Jwt.compact. cbv zeta. by rewrite !app_assoc_s. Qed.

Lemma compact_nonempty c k : JS.falsy (Jwt.compact c k) = false.
Proof. by rewrite compact_header, falsy_app. Qed.

(** A well-formed token with the right signature verifies until its
    expiry. *)
Lemma verify_signed c secret t :
  JS.falsy_opt secret = false ->
  (forall e, Jwt.exp c = Some e -> t < e) ->
  Jwt.verify (Jwt.compact c (default EmptyString secret)) secret t = Ok c.
Proof.
  intros Hs Hexp. pose proof (compact_nonempty c (default EmptyString secret)) as Hf.
  revert Hf. unfold Jwt.compact. cbv zeta.
  set (input := Jwt.jose_header +:+ "." +:+ Jwt.enc_payload c).
  set (k := default EmptyString secret). intros Hf.
  pose proof (Jwt.enc_payload_b64url c) as Hp.
  pose proof (Jwt.mac_b64url Jwt.HS256 k input) as Hb.
  pose proof (Jwt.mac_nonempty Jwt.HS256 k input) as Hm.
  pose proof (proj2 (falsy_false _) (Jwt.enc_payload_nonempty c)) as Hne.
  unfold Jwt.verify. rewrite Hf. unfold input at 1.
  rewrite split_token by auto using b64url_jose_header.
  unfold Jwt.isValidJws.
  rewrite b64url_jose_header, Hp, Hb, Hne.
  change (JS.falsy Jwt.jose_header) with false. cbv beta iota delta [negb andb].
  rewrite Jwt.dec_jose_header, Jwt.dec_enc_payload, Hs.
  fold input.
  destruct (Jwt.mac Jwt.HS256 k input) as [|m0 m] eqn:Em; [done|].
  apply andb_true_iff in Hb as [Hb _].
  rewrite (trim_not_white _ _ (b64url_not_white _ Hb)).
  rewrite bool_decide_eq_true_2 by (rewrite elem_of_cons; by left).
  rewrite bool_decide_eq_true_2 by done.
  cbv beta iota delta [negb].
  destruct (Jwt.exp c) as [e|] eqn:Ee; [|done].
  specialize (Hexp e eq_refl).
  destruct (Z.leb_spec e t); [lia|done].
Qed.

(** The three ways a presented token fails: it is not three segments, its
    signature is not the one the secret gives, or its expiry has come. *)
Lemma verify_malformed token secret t :
  length (JS.split "." token) <> 3%nat ->
  exists e, Jwt.verify token secret t = Throw e.
Proof.
  intros Hl. unfold Jwt.verify. destruct (JS.falsy token); [by eexists|].
  destruct (JS.split "." token) as [|h [|p [|s [|x l]]]];
    first [by destruct Hl | by eexists].
Qed.

Lemma verify_bad_signature token secret t h p s a :
  JS.split "." token = [h; p; s] -> Jwt.dec_header h = Some a ->
  Jwt.mac a (default EmptyString secret) (h +:+ "." +:+ p) <> s ->
  exists e, Jwt.verify token secret t = Throw e.
Proof.
  intros Hsp Hh Hsig. unfold Jwt.verify.
  destruct (JS.falsy token); [by eexists|]. rewrite Hsp.
  destruct (negb (Jwt.isValidJws h p s)); [by eexists|]. rewrite Hh.
  destruct (Jwt.dec_payload p); [|by eexists].
  destruct (JS.falsy (JS.trim s)); [by eexists|].
  destruct (JS.falsy_opt secret); [by eexists|].
  destruct (negb (bool_decide (a ∈ [Jwt.HS256; Jwt.HS384; Jwt.HS512]))); [by eexists|].
  rewrite bool_decide_eq_false_2 by done. by eexists.
Qed.

Lemma verify_expired token secret t h p s c e :
  JS.split "." token = [h; p; s] -> Jwt.dec_payload p = Some c ->
  Jwt.exp c = Some e -> e <= t ->
  exists err, Jwt.verify token secret t = Throw err.
Proof.
  intros Hsp Hp He Hle. unfold Jwt.verify.
  destruct (JS.falsy token); [by eexists|]. rewrite Hsp.
  destruct (negb (Jwt.isValidJws h p s)); [by eexists|]. rewrite Hp.
  destruct (Jwt.dec_header h) as [a|]; [|by eexists].
  destruct (JS.falsy (JS.trim s)); [by eexists|].
  destruct (JS.falsy_opt secret); [by eexists|].
  destruct (negb (bool_decide (a ∈ [Jwt.HS256; Jwt.HS384; Jwt.HS512]))); [by eexists|].
  destruct (negb (bool_decide (Jwt.mac a (default EmptyString secret) (h +:+ "." +:+ p) = s)));
    [by eexists|].
  rewrite He. destruct (Z.leb_spec e t); [by eexists|lia].
Qed.

End JwtFacts.

(** ** ObjectId and collections *)

Section StoreFacts.

Implicit Types (o : bytes) (b : byte) (d : doc) (c : list doc).

Lemma hex_byte b :
  ObjectId.hex_value (ObjectId.hex_digit (Byte.to_N b / 16)) = Some (Byte.to_N b / 16)%N
  /\ ObjectId.hex_value (ObjectId.hex_digit (Byte.to_N b mod 16)) = Some (Byte.to_N b mod 16)%N
  /\ ObjectId.byte_of_N (16 * (Byte.to_N b / 16) + Byte.to_N b mod 16) = b.
Proof. destruct b; vm_compute; auto. Qed.

Lemma fromHex_toHexString o : ObjectId.fromHex (ObjectId.toHexString o) = Some o.
Proof.
  induction o as [|b o IH]; [reflexivity|].
  destruct (hex_byte b) as (Hh & Hl & Hb).
  cbn [ObjectId.toHexString ObjectId.fromHex].
  by rewrite Hh, Hl, IH, Hb.
Qed.

Lemma toHexString_length o :
  String.length (ObjectId.toHexString o) = (2 * length o)%nat.
Proof. induction o as [|b o IH]; simpl; [done|]. rewrite IH. lia. Qed.

Lemma toHexString_hex o :
  JS.all_chars ObjectId.is_hex (ObjectId.toHexString o) = true.
Proof.
  induction o as [|b o IH]; [reflexivity|].
  destruct (hex_byte b) as (Hh & Hl & _).
  cbn [ObjectId.toHexString JS.all_chars]. unfold ObjectId.is_hex at 1 2.
  by rewrite Hh, Hl, IH.
Qed.

Lemma isValid_toHexString o :
  length o = 12%nat -> ObjectId.isValid (ObjectId.toHexString o) = true.
Proof.
  intros Hlen. unfold ObjectId.isValid.
  rewrite toHexString_hex, toHexString_length, Hlen.
  by rewrite bool_decide_eq_true_2.
Qed.

(** The hex string of an id casts back to the id. *)
Lemma cast_toHexString o :
  length o = 12%nat -> ObjectId.cast (ObjectId.toHexString o) = Some o.
Proof.
  intros Hlen. unfold ObjectId.cast.
  by rewrite (isValid_toHexString _ Hlen), fromHex_toHexString.
Qed.

Lemma be_bytes_length k n : length (ObjectId.be_bytes k n) = k.
Proof.
  revert n. induction k as [|k IH]; intros n; simpl; [done|].
  rewrite length_app, IH. simpl. lia.
Qed.

Lemma generate_length t r n : length (ObjectId.generate t r n) = 12%nat.
Proof. unfold ObjectId.generate. by rewrite !length_app, !be_bytes_length. Qed.

Lemma fresh_id_length sys : length (Mongoose.fresh_id sys) = 12%nat.
Proof. apply generate_length. Qed.

(** A cast that succeeds was of a valid string, and the other way round. *)
Lemma cast_None s : ObjectId.isValid s = false -> ObjectId.cast s = None.
Proof. intros Hs. unfold ObjectId.cast. by rewrite Hs. Qed.

Lemma fromHex_hex s :
  JS.all_chars ObjectId.is_hex s = true -> Nat.Even (String.length s) ->
  is_Some (ObjectId.fromHex s).
Proof.
  intros Hs [n Hn]. revert s Hs Hn.
  induction n as [|n IH]; intros s Hs Hn.
  - destruct s; [by eexists|done].
  - destruct s as [|h [|l s]]; [done|simpl in Hn; lia|].
    cbn [JS.all_chars] in Hs.
    apply andb_true_iff in Hs as [Hh Hs]. apply andb_true_iff in Hs as [Hl Hs].
    destruct (IH s Hs) as [o Ho]; [simpl in Hn; lia|].
    cbn [ObjectId.fromHex]. unfold ObjectId.is_hex in Hh, Hl.
    destruct (ObjectId.hex_value h), (ObjectId.hex_value l); try done.
    rewrite Ho. by eexists.
Qed.

Lemma cast_Some s : ObjectId.isValid s = true -> is_Some (ObjectId.cast s).
Proof.
  intros Hs. unfold ObjectId.cast. rewrite Hs.
  unfold ObjectId.isValid in Hs. apply andb_true_iff in Hs as [Hlen Hhex].
  apply bool_decide_eq_true in Hlen.
  apply fromHex_hex; [done|]. rewrite Hlen. by exists 12%nat.
Qed.

Lemma find_app_last {A} (f : A -> bool) (l : list A) (x : A) :
  existsb f l = false -> f x = true -> List.find f (l ++ [x]) = Some x.
Proof.
  intros Hl Hx. induction l as [|y l IH]; simpl in *.
  - by rewrite Hx.
  - apply orb_false_iff in Hl as [Hy Hl]. rewrite Hy. auto.
Qed.

Lemma insert_Ok c o d d' c' :
  Mongoose.insert c o d = Ok (d', c') ->
  existsb (Mongoose.has_id o) c = false
  /\ d' = <["_id" := VId o]> d /\ c' = c ++ [d'].
Proof.
  unfold Mongoose.insert.
  destruct (existsb (Mongoose.has_id o) c); [done|].
  intros [= <- <-]. auto.
Qed.

End StoreFacts.

(** ** The example instance meets the interface *)

Section PlainFacts.

Lemma unhexs_hexs s : Plain.unhexs (Plain.hexs s) = Some s.
Proof.
  unfold Plain.unhexs, Plain.hexs. rewrite fromHex_toHexString. simpl.
  by rewrite String.string_of_list_byte_of_string.
Qed.

Lemma unnum_num z : Plain.unnum (Plain.num z) = Some z.
Proof.
  unfold Plain.unnum, Plain.num. rewrite unhexs_hexs.
  rewrite DecimalString.NilEmpty.isi. simpl. by rewrite DecimalZ.of_to.
Qed.

Lemma field_b64url c : Plain.field_char c = true -> Jwt.b64url_char c = true.
Proof. destruct c as [[] [] [] [] [] [] [] []]; first [reflexivity | discriminate]. Qed.

Lemma is_hex_field c : ObjectId.is_hex c = true -> Plain.field_char c = true.
Proof. unfold Plain.field_char. by intros ->. Qed.

Lemma hexs_field s : JS.all_chars Plain.field_char (Plain.hexs s) = true.
Proof.
  apply (all_chars_impl ObjectId.is_hex); [apply is_hex_field|].
  apply toHexString_hex.
Qed.

Lemma enc_exp_field e : JS.all_chars Plain.field_char (Plain.enc_exp e) = true.
Proof. destruct e as [z|]; [|done]. simpl. apply hexs_field. Qed.

Lemma dec_enc_exp e : Plain.dec_exp (Plain.enc_exp e) = Some e.
Proof.
  destruct e as [z|]; [|done].
  unfold Plain.enc_exp, Plain.dec_exp.
  rewrite decide_True by done. by rewrite unnum_num.
Qed.

Lemma plain_dec_enc c : Plain.dec_payload (Plain.enc_payload c) = Some c.
Proof.
  destruct c as [i e t x]. unfold Plain.dec_payload, Plain.enc_payload. simpl.
  rewrite !(split_app Plain.field_char) by (done || apply hexs_field).
  rewrite (split_one Plain.field_char) by (done || apply enc_exp_field).
  by rewrite !unhexs_hexs, unnum_num, dec_enc_exp.
Qed.

Lemma hexs_b64url s : JS.all_chars Jwt.b64url_char (Plain.hexs s) = true.
Proof.
  apply (all_chars_impl Plain.field_char); [apply field_b64url|apply hexs_field].
Qed.

Lemma enc_exp_b64url e : JS.all_chars Jwt.b64url_char (Plain.enc_exp e) = true.
Proof.
  apply (all_chars_impl Plain.field_char); [apply field_b64url|apply enc_exp_field].
Qed.

Lemma plain_enc_b64url c : Jwt.b64url (Plain.enc_payload c) = true.
Proof.
  unfold Jwt.b64url, Plain.enc_payload, Plain.num. rewrite !all_chars_app.
  by rewrite !hexs_b64url, enc_exp_b64url.
Qed.

Lemma plain_enc_nonempty c : Plain.enc_payload c <> EmptyString.
Proof.
  apply falsy_false. unfold Plain.enc_payload.
  rewrite !falsy_app. simpl. by rewrite !andb_false_r.
Qed.

Lemma plain_mac_b64url a k m : Jwt.b64url (Plain.mac a k m) = true.
Proof.
  unfold Jwt.b64url, Plain.mac. cbn [JS.all_chars].
  by rewrite hexs_b64url.
Qed.

End PlainFacts.

#[export] Instance plain_primitives : Jwt.Primitives := {|
  Jwt.enc_payload := Plain.enc_payload;
  Jwt.dec_payload := Plain.dec_payload;
  Jwt.dec_header := Plain.dec_header;
  Jwt.mac := Plain.mac;
  Jwt.ms := Plain.ms;
  Jwt.dec_enc_payload := plain_dec_enc;
  Jwt.enc_payload_b64url := plain_enc_b64url;
  Jwt.enc_payload_nonempty := plain_enc_nonempty;
  Jwt.dec_jose_header := eq_refl;
  Jwt.mac_b64url := plain_mac_b64url;
  Jwt.mac_nonempty := fun _ _ _ => ltac:(discriminate);
  Jwt.ms_1d := eq_refl
|}.

#[export] Instance plain_validator : Auth.Validator := {|
  Auth.isEmail := Plain.isEmail
|}.

#[export] Instance plain_user_model : Auth.UserModel := {|
  Auth.hashPassword := Plain.hashPassword;
  Auth.matchPassword := Plain.matchPassword
|}.

(** ** au.js *)

Section AuthFacts.

Context `{Jwt.Primitives} `{Auth.Validator} `{Auth.UserModel}.

Lemma signToken_ok env sys id email span :
  JS.falsy_opt (Auth.JWT_SECRET env) = false ->
  Jwt.ms (JS.or_else (Auth.JWT_EXPIRES env) "1d") = Some span ->
  Auth.signToken env sys id email =
    Ok (Jwt.compact {| Jwt.sub_id := id; Jwt.sub_email := email;
                       Jwt.iat := now sys / 1000;
                       Jwt.exp := Some (now sys / 1000 + span / 1000) |}
          (default EmptyString (Auth.JWT_SECRET env))).
Proof. intros Hs Hm. unfold Auth.signToken. by apply sign_ok. Qed.

Lemma auth_unfold env sys authorization :
  Auth.auth env sys authorization =
    if JS.falsy (Auth.bearer authorization)
    then Express.Respond (Auth.Message 401 true "No token provided")
    else match Jwt.verify (Auth.bearer authorization) (Auth.JWT_SECRET env) (now sys / 1000) with
         | Ok decoded => Express.Next decoded
         | Throw _ => Express.Respond (Auth.Message 401 true "Invalid/Expired token")
         end.
Proof. reflexivity. Qed.

Lemma bearer_prefixed token : Auth.bearer (Some ("Bearer " +:+ token)) = token.
Proof. reflexivity. Qed.

(** A signed token begins with the header segment, not with "Bearer ". *)
Lemma bearer_compact c k : Auth.bearer (Some (Jwt.compact c k)) = Jwt.compact c k.
Proof. by rewrite compact_header. Qed.

(** C1. A token issued by [signToken] under a configured secret and
    presented to the gate before its expiry, as [Bearer <token>] or bare,
    passes, and [req.user] carries exactly the subject id and email that
    were signed. *)
Theorem issue_then_verify_roundtrip env issued checked id email span :
  JS.falsy_opt (Auth.JWT_SECRET env) = false ->
  Jwt.ms (JS.or_else (Auth.JWT_EXPIRES env) "1d") = Some span ->
  now checked / 1000 < now issued / 1000 + span / 1000 ->
  exists token,
    Auth.signToken env issued id email = Ok token
    /\ forall header, header = "Bearer " +:+ token \/ header = token ->
       exists decoded,
         Auth.auth env checked (Some header) = Express.Next decoded
         /\ Jwt.sub_id decoded = id /\ Jwt.sub_email decoded = email.
Proof.
  intros Hs Hm Ht.
  set (c := {| Jwt.sub_id := id; Jwt.sub_email := email;
               Jwt.iat := now issued / 1000;
               Jwt.exp := Some (now issued / 1000 + span / 1000) |}).
  set (k := default EmptyString (Auth.JWT_SECRET env)).
  exists (Jwt.compact c k). split; [by apply signToken_ok|].
  intros header Hh. exists c. split; [|done].
  rewrite auth_unfold.
  replace (Auth.bearer (Some header)) with (Jwt.compact c k)
    by (destruct Hh as [-> | ->]; [by rewrite bearer_prefixed|by rewrite bearer_compact]).
  rewrite compact_nonempty. unfold k.
  by rewrite verify_signed; [|done|intros e [= <-]].
Qed.

(** With [JWT_EXPIRES] unset the token lives one day. *)
Lemma default_lifetime env :
  Auth.JWT_EXPIRES env = None ->
  Jwt.ms (JS.or_else (Auth.JWT_EXPIRES env) "1d") = Some 86400000.
Proof. intros ->. apply Jwt.ms_1d. Qed.

(** C2. The gate takes the token from the authorization header, without
    its "Bearer " prefix when it has one. An empty token is answered 401
    "No token provided"; a token that fails verification (not three
    segments, a wrong signature, an elapsed expiry) is answered 401
    "Invalid/Expired token"; and whenever the gate answers, the handler
    behind it does not run: the route's answer is the gate's and the state
    is the one before. *)
Theorem gate_rejects_unauthenticated env sys authorization :
  let header := JS.or_else authorization EmptyString in
  let token := if JS.startsWith header "Bearer " then JS.slice 7 header else header in
  let secret := Auth.JWT_SECRET env in
  let t := now sys / 1000 in
  let gate := Auth.auth env sys authorization in
  (token = EmptyString ->
     gate = Express.Respond (Auth.Message 401 true "No token provided"))
  /\ (token <> EmptyString -> forall e, Jwt.verify token secret t = Throw e ->
     gate = Express.Respond (Auth.Message 401 true "Invalid/Expired token"))
  /\ (length (JS.split "." token) <> 3%nat ->
     exists e, Jwt.verify token secret t = Throw e)
  /\ (forall h p s a, JS.split "." token = [h; p; s] -> Jwt.dec_header h = Some a ->
     Jwt.mac a (default EmptyString secret) (h +:+ "." +:+ p) <> s ->
     exists e, Jwt.verify token secret t = Throw e)
  /\ (forall h p s c e, JS.split "." token = [h; p; s] -> Jwt.dec_payload p = Some c ->
     Jwt.exp c = Some e -> e <= t ->
     exists err, Jwt.verify token secret t = Throw err)
  /\ (forall r, gate = Express.Respond r ->
     forall (S : Type) (handler : Jwt.claims -> S -> response * S) (s : S),
       Express.route gate handler s = (r, s)).
Proof.
  intros header token secret t gate.
  assert (gate =
    if JS.falsy token
    then Express.Respond (Auth.Message 401 true "No token provided")
    else match Jwt.verify token secret t with
         | Ok decoded => Express.Next decoded
         | Throw _ => Express.Respond (Auth.Message 401 true "Invalid/Expired token")
         end) as Hgate by reflexivity.
  repeat split.
  - intros Ht. by rewrite Hgate, Ht.
  - intros Ht%falsy_false e He. by rewrite Hgate, Ht, He.
  - apply verify_malformed.
  - intros h p s a. apply verify_bad_signature.
  - intros h p s c e. apply verify_expired.
  - intros r Hr S handler s. by rewrite Hr.
Qed.

(** A token issued by [signToken] is turned away once its expiry has
    come. *)
Lemma expired_token_rejected env issued checked id email span token :
  JS.falsy_opt (Auth.JWT_SECRET env) = false ->
  Jwt.ms (JS.or_else (Auth.JWT_EXPIRES env) "1d") = Some span ->
  Auth.signToken env issued id email = Ok token ->
  now issued / 1000 + span / 1000 <= now checked / 1000 ->
  Auth.auth env checked (Some ("Bearer " +:+ token)) =
    Express.Respond (Auth.Message 401 true "Invalid/Expired token").
Proof.
  intros Hs Hm Htok Ht. rewrite (signToken_ok _ _ _ _ _ Hs Hm) in Htok.
  injection Htok as <-. rewrite auth_unfold, bearer_prefixed, compact_nonempty.
  set (c := {| Jwt.sub_id := id; Jwt.sub_email := email;
               Jwt.iat := now issued / 1000;
               Jwt.exp := Some (now issued / 1000 + span / 1000) |}).
  set (k := default EmptyString (Auth.JWT_SECRET env)).
  destruct (verify_expired (Jwt.compact c k) (Auth.JWT_SECRET env)
              (now checked / 1000) Jwt.jose_header (Jwt.enc_payload c)
              (Jwt.mac Jwt.HS256 k (Jwt.jose_header +:+ "." +:+ Jwt.enc_payload c))
              c (now issued / 1000 + span / 1000)) as [err ->]; try done.
  - apply split_token;
      auto using b64url_jose_header, Jwt.enc_payload_b64url, Jwt.mac_b64url.
  - apply Jwt.dec_enc_payload.
Qed.

(** C5. For a well-formed email and a non-empty password, the answer to a
    login for an email that is not registered and the answer to a login
    for a registered email with a password that does not match are the
    same response: 401 with the message "Invalid credentials". *)
Theorem login_failures_identical env env' sys sys' b b' e p p' users users' u :
  Auth.email b = Some e -> Auth.password b = Some p ->
  Auth.email b' = Some e -> Auth.password b' = Some p' ->
  Auth.isEmail e = true -> p <> EmptyString -> p' <> EmptyString ->
  Mongoose.findOne users "email" e = None ->
  Mongoose.findOne users' "email" e = Some u ->
  Auth.matchPassword (Mongoose.str_field u "password") p' = false ->
  Auth.login env sys b users = Auth.login env' sys' b' users'
  /\ Auth.login env sys b users = Auth.Message 401 true "Invalid credentials"
  /\ status (Auth.login env' sys' b' users') = 401.
Proof.
  intros He Hp He' Hp' Hmail Hne%falsy_false Hne'%falsy_false Hno Hu Hpw.
  assert (Auth.login env sys b users = Auth.Message 401 true "Invalid credentials") as Hleft.
  { unfold Auth.login. rewrite He, Hp. cbn [from_option id]. rewrite Hmail, Hne.
    cbn [negb Auth.check app]. by rewrite Hno. }
  assert (Auth.login env' sys' b' users' = Auth.Message 401 true "Invalid credentials") as Hright.
  { unfold Auth.login. rewrite He', Hp'. cbn [from_option id]. rewrite Hmail, Hne'.
    cbn [negb Auth.check app]. by rewrite Hu, Hpw. }
  rewrite Hleft, Hright. done.
Qed.

(** C6. For a valid signup (a name that is not blank, a well-formed email
    that is not registered, a password of six characters or more), the
    answer is either the 201 whose user view is the stored account without
    its [password] field, the account itself being stored with the hashed
    password, or the 500 that carries no user view at all. *)
Theorem signup_view_without_password env sys b users r users' :
  let n := JS.trim (default EmptyString (Auth.name b)) in
  let e := default EmptyString (Auth.email b) in
  let p := default EmptyString (Auth.password b) in
  n <> EmptyString -> Auth.isEmail e = true -> (6 <= String.length p)%nat ->
  Mongoose.findOne users "email" e = None ->
  Auth.signup env sys b users = (r, users') ->
  (status r = 201
   /\ exists token user,
       users' = users ++ [user]
       /\ user !! "password" = Some (VStr (Auth.hashPassword p))
       /\ body r = Json (JObj [("isError", JBool false);
                               ("Message", JStr "User created");
                               ("token", JStr token);
                               ("user", JDoc (delete "password" user))])
       /\ delete "password" user !! "password" = None)
  \/ r = Auth.Message 500 true "Internal server error".
Proof.
  intros n e p Hn%falsy_false He Hp Hno. unfold Auth.signup.
  fold n e p. rewrite Hn, He, (bool_decide_eq_true_2 _ Hp).
  cbn [negb Auth.check app]. rewrite Hno. unfold Auth.User_create.
  destruct (Mongoose.insert _ _ _) as [[user us]|err] eqn:Hins;
    [|intros [= <- <-]; by right].
  apply insert_Ok in Hins as (_ & Huser & ->).
  destruct (Auth.signToken _ _ _ _) as [token|err]; [|intros [= <- <-]; by right].
  intros [= <- <-]. left. split; [done|]. exists token, user. repeat split.
  - by rewrite Huser.
  - apply lookup_delete_eq.
Qed.

(** With a secret, a time span that parses and an id that is not taken,
    a valid signup is answered 201. *)
Lemma signup_created env sys b users span :
  let n := JS.trim (default EmptyString (Auth.name b)) in
  let e := default EmptyString (Auth.email b) in
  let p := default EmptyString (Auth.password b) in
  n <> EmptyString -> Auth.isEmail e = true -> (6 <= String.length p)%nat ->
  Mongoose.findOne users "email" e = None ->
  JS.falsy_opt (Auth.JWT_SECRET env) = false ->
  Jwt.ms (JS.or_else (Auth.JWT_EXPIRES env) "1d") = Some span ->
  existsb (Mongoose.has_id (Mongoose.fresh_id sys)) users = false ->
  status (Auth.signup env sys b users).1 = 201.
Proof.
  intros n e p Hn%falsy_false He Hp Hno Hs Hm Hfresh. unfold Auth.signup.
  fold n e p. rewrite Hn, He, (bool_decide_eq_true_2 _ Hp).
  cbn [negb Auth.check app]. rewrite Hno.
  unfold Auth.User_create, Mongoose.insert. rewrite Hfresh.
  by rewrite (signToken_ok _ _ _ _ _ Hs Hm).
Qed.

End AuthFacts.

(** ** multer *)

Section MulterFacts.

Implicit Types (f : Multer.File) (req : Multer.Form).

Lemma single_outcome req :
  (exists file, Multer.single Backend.upload "image" req = Express.Next (Multer.fields req, file))
  \/ (exists e, Multer.single Backend.upload "image" req = Express.NextErr e).
Proof.
  unfold Multer.single.
  destruct (Multer.accept _ _ _ _ _); [left|right]; by eexists.
Qed.

(** What got through [upload.single('image')]: no file at all, or one
    file, in the field [image], declared an image, within the size limit. *)
Lemma single_Next req b file :
  Multer.single Backend.upload "image" req = Express.Next (b, file) ->
  b = Multer.fields req
  /\ ((Multer.files req = [] /\ file = None)
      \/ (exists f, Multer.files req = [f] /\ file = Some f
                    /\ Multer.fieldname f = "image"
                    /\ JS.startsWith (Multer.mimetype f) "image/" = true
                    /\ Multer.size f <= 5 * 1024 * 1024)).
Proof.
  unfold Multer.single.
  destruct (Multer.files req) as [|f [|g fs]]; cbn [Multer.accept].
  - intros [= <- <-]. auto.
  - case_bool_decide as Hn; cbn [negb]; [|done].
    unfold Backend.upload at 1. cbn [Multer.fileFilter]. unfold Backend.fileFilter.
    destruct (JS.startsWith (Multer.mimetype f) "image/") eqn:Hi; [|done].
    cbn [Backend.upload Multer.fileSize].
    destruct (Z.ltb_spec (5 * 1024 * 1024) (Multer.size f)); [done|].
    intros [= <- <-]. split; [done|]. right. exists f. auto.
  - case_bool_decide as Hn; cbn [negb]; [|done].
    unfold Backend.upload at 1. cbn [Multer.fileFilter]. unfold Backend.fileFilter.
    destruct (JS.startsWith (Multer.mimetype f) "image/"); [|done].
    by destruct (Multer.fileSize Backend.upload <? Multer.size f).
Qed.


(** One image in the field [image] that is over the limit. *)
Lemma single_too_large req f :
  Multer.files req = [f] -> Multer.fieldname f = "image" ->
  JS.startsWith (Multer.mimetype f) "image/" = true ->
  5 * 1024 * 1024 < Multer.size f ->
  Multer.single Backend.upload "image" req =
    Express.NextErr (Multer.LIMIT_FILE_SIZE "image").
Proof.
  intros Hf Hn Hi Hsz. unfold Multer.single. rewrite Hf. cbn [Multer.accept].
  rewrite bool_decide_eq_true_2 by done. cbn [negb].
  unfold Backend.upload at 1. cbn [Multer.fileFilter]. unfold Backend.fileFilter.
  rewrite Hi. cbn [Backend.upload Multer.fileSize].
  destruct (Z.ltb_spec (5 * 1024 * 1024) (Multer.size f)); [|lia].
  by rewrite Hn.
Qed.

(** Every error of [upload] comes without a status. *)
Lemma accept_Throw_status field left fs kept e :
  Multer.accept Backend.upload field left fs kept = Throw e ->
  JS.err_status e = None.
Proof.
  revert left kept. induction fs as [|f fs IH]; intros left kept; cbn [Multer.accept].
  { intros [=]. }
  destruct left as [|left]. { by intros [= <-]. }
  destruct (negb _). { by intros [= <-]. }
  unfold Backend.upload at 1. cbn [Multer.fileFilter]. unfold Backend.fileFilter.
  destruct (JS.startsWith _ _). 2: { by intros [= <-]. }
  destruct (_ <? _). { by intros [= <-]. }
  apply IH.
Qed.


Lemma finalhandler_status e :
  400 <= status (Express.finalhandler e) < 600.
Proof.
  unfold Express.finalhandler, Express.getErrorStatusCode. cbn [status].
  destruct (JS.err_status e) as [c|]; [|lia].
  destruct (Z.leb_spec 400 c), (Z.ltb_spec c 600); cbn [andb]; lia.
Qed.

End MulterFacts.

(** ** imageuploader/backend.js *)

Section BackendFacts.

Implicit Types (f : Multer.File) (req : Multer.Form) (users : list doc).





Lemma content_type_image v :
  JS.startsWith v "image/" = true -> Express.content_type_value (Some v) = v.
Proof.
  intros Hv. unfold Express.content_type_value. cbn [from_option id].
  destruct (Express.charsetRegExp_test v); [done|].
  destruct v as [|c v]; [done|].
  cbn [JS.startsWith] in Hv. apply andb_true_iff in Hv as [Hc _].
  apply bool_decide_eq_true in Hc as <-.
  destruct (split_head ";" "i" v) as (x & xs & ->); [done|].
  reflexivity.
Qed.


(** C8. The image route checks the id before it looks anything up: an
    id that is not well-formed is answered 400 whatever the collection
    holds; a well-formed id is looked up without an exception, and is
    answered 404 when no document has it or the document has no image
    bytes. No id is answered 500. *)
Theorem image_fetch_validates_id env users id :
  (ObjectId.isValid id = false ->
     Backend.get_user_image env users id = Backend.failure 400 "Invalid user ID format")
  /\ (ObjectId.isValid id = true ->
      (exists found, Mongoose.findById users id = Ok found)
      /\ (Mongoose.findById users id = Ok None ->
          Backend.get_user_image env users id = Backend.failure 404 "Image not found")
      /\ (forall user, Mongoose.findById users id = Ok (Some user) ->
          Backend.image_data user = None ->
          Backend.get_user_image env users id = Backend.failure 404 "Image not found"))
  /\ status (Backend.get_user_image env users id) <> 500.
Proof.
  unfold Backend.get_user_image. destruct (ObjectId.isValid id) eqn:Hv; cbn [negb].
  - destruct (cast_Some id Hv) as [o Ho].
    unfold Mongoose.findById. rewrite Ho.
    split; [done|]. split.
    + intros _. split; [by eexists|]. split.
      * by intros [= ->].
      * by intros user [= ->] ->.
    + destruct (List.find _ _) as [user|]; [|done].
      by destruct (Backend.image_data user).
  - split; [done|]. split; done.
Qed.

(** C10. The metadata route looks an id up without checking it: for an
    id that is not well-formed the lookup throws a cast error and the
    answer is 500, where the image route answers 400 to the same id. *)
Theorem metadata_fetch_of_malformed_id env users id :
  ObjectId.isValid id = false ->
  Mongoose.findById users id = Throw (Mongoose.CastError id)
  /\ Backend.get_user users id =
       Backend.internal_error (JS.err_message (Mongoose.CastError id))
  /\ status (Backend.get_user users id) = 500
  /\ status (Backend.get_user_image env users id) = 400.
Proof.
  intros Hv. unfold Backend.get_user, Backend.get_user_image, Mongoose.findById.
  by rewrite (cast_None _ Hv), Hv.
Qed.



Lemma insert_desc_perm d l : Permutation (Backend.insert_desc d l) (d :: l).
Proof.
  induction l as [|x l IH]; cbn; [done|].
  destruct (Backend.key_le _ _); [done|].
  rewrite IH. apply perm_swap.
Qed.


Lemma sort_desc_perm l : Permutation (Backend.sort_desc l) l.
Proof.
  induction l as [|d l IH]; cbn; [done|].
  by rewrite insert_desc_perm, IH.
Qed.


(** The projection keeps the creation time. *)
Lemma createdAt_delete_image d :
  Backend.createdAt (delete "image" d) = Backend.createdAt d.
Proof. unfold Backend.createdAt. by rewrite lookup_delete_ne. Qed.


End BackendFacts.

(** ** The model on small inputs *)

Example split_three_segments : JS.split "." "aa.bb.cc" = ["aa"; "bb"; "cc"].
Proof. reflexivity. Qed.

Example split_trailing_dot : JS.split "." "aa.bb." = ["aa"; "bb"; EmptyString].
Proof. reflexivity. Qed.

Example trim_name : JS.trim "  Ann " = "Ann".
Proof. reflexivity. Qed.

Example bearer_examples :
  Auth.bearer (Some "Bearer abc") = "abc"
  /\ Auth.bearer (Some "abc") = "abc"
  /\ Auth.bearer (Some "Bearer ") = EmptyString
  /\ Auth.bearer (Some "bearer abc") = "bearer abc"
  /\ Auth.bearer None = EmptyString.
Proof. repeat split. Qed.

Example isValid_examples :
  ObjectId.isValid "6553f100000000004d000005" = true
  /\ ObjectId.isValid "6553F100000000004D000005" = true
  /\ ObjectId.isValid "6553f100000000004d00000g" = false
  /\ ObjectId.isValid "6553f100000000004d0000" = false
  /\ ObjectId.isValid "xyz" = false.
Proof. repeat split. Qed.

Example fresh_id_at_t0 :
  ObjectId.toHexString (Mongoose.fresh_id Sample.t0) = "6553f100000000004d000005".
Proof. reflexivity. Qed.

Example content_type_values :
  Express.content_type_value (Some "image/png") = "image/png"
  /\ Express.content_type_value (Some "text/plain") = "text/plain; charset=utf-8"
  /\ Express.content_type_value (Some "text/plain; charset=x") = "text/plain; charset=x"
  /\ Express.content_type_value None = "undefined".
Proof. repeat split. Qed.

(** A token of the sample environment passes a second before a day is
    over, and is turned away a day after it was issued, as is a token with
    one more character, under the example instance. *)
Example token_through_the_day :
  match Auth.signToken Sample.env Sample.t0 "6553f100000000004d000005" "ann@example.org" with
  | Ok token =>
      Auth.auth Sample.env Sample.t1 (Some ("Bearer " +:+ token)) =
        Express.Next {| Jwt.sub_id := "6553f100000000004d000005";
                        Jwt.sub_email := "ann@example.org";
                        Jwt.iat := 1700000000; Jwt.exp := Some 1700086400 |}
      /\ Auth.auth Sample.env Sample.t2 (Some ("Bearer " +:+ token)) =
           Express.Respond (Auth.Message 401 true "Invalid/Expired token")
      /\ Auth.auth Sample.env Sample.t1 (Some ("Bearer " +:+ token +:+ "0")) =
           Express.Respond (Auth.Message 401 true "Invalid/Expired token")
  | Throw _ => False
  end.
Proof. by vm_compute. Qed.

(** Two files in one form, a form without a file, and a form without its
    name are all turned down without a write. *)
Example turned_down_forms :
  status (Backend.post_users Sample.t0 (Sample.form [Sample.png; Sample.png]) []).1 = 500
  /\ Backend.post_users Sample.t0 (Sample.form []) [] =
       (Backend.failure 400 "Image is required", [])
  /\ Backend.post_users Sample.t0
       {| Multer.fields := {[ "mobile" := "1234567890"; "address" := "1 Main St" ]};
          Multer.files := [Sample.png] |} [] =
       (Backend.failure 400 "Name, mobile, and address are required", []).
Proof. by vm_compute. Qed.

(** Three profiles stored one after the other are listed newest first,
    and none is listed with its image. *)
Example listing_of_three :
  let s1 := (Backend.post_users Sample.t0 (Sample.form [Sample.png]) []).2 in
  let s2 := (Backend.post_users Sample.t1 (Sample.form [Sample.png]) s1).2 in
  let s3 := (Backend.post_users Sample.t2 (Sample.form [Sample.png]) s2).2 in
  map Backend.createdAt s3 = [Some (now Sample.t0); Some (now Sample.t1); Some (now Sample.t2)]
  /\ map Backend.createdAt (Backend.find_all s3)
     = [Some (now Sample.t2); Some (now Sample.t1); Some (now Sample.t0)]
  /\ map Backend.image_data (Backend.find_all s3) = [None; None; None].
Proof. by vm_compute. Qed.

(** An image of 6 MiB is turned away with LIMIT_FILE_SIZE before anything
    is stored, and the answer is 500, not 413. *)
Lemma six_mebibyte_image_is_answered_500 :
  let big : Multer.File :=
    {| Multer.fieldname := "image"; Multer.originalname := "big.png";
       Multer.mimetype := "image/png";
       Multer.buffer := replicate (Z.to_nat (6 * 1024 * 1024)) Byte.x00 |} in
  Multer.single Backend.upload "image" (Sample.form [big]) =
    Express.NextErr (Multer.LIMIT_FILE_SIZE "image")
  /\ Backend.post_users Sample.t0 (Sample.form [big]) [] =
       ({| status := 500; headers := [];
          body := ErrorPage (Multer.LIMIT_FILE_SIZE "image") |}, []).
Proof.
  intros big.
  assert (Multer.single Backend.upload "image" (Sample.form [big]) =
          Express.NextErr (Multer.LIMIT_FILE_SIZE "image")) as Hs.
  { apply (single_too_large _ big); [reflexivity..|].
    unfold Multer.size, big. cbn [Multer.buffer].
    rewrite length_replicate, Z2Nat.id; lia. }
  split; [done|]. unfold Backend.post_users. by rewrite Hs.
Qed.

(** ** The statements at the sample inputs *)

(** C1 at a token issued at [Sample.t0] and presented a second before it
    expires. *)
Lemma issue_then_verify_roundtrip_witness :
  JS.falsy_opt (Auth.JWT_SECRET Sample.env) = false
  /\ now Sample.t1 / 1000 < now Sample.t0 / 1000 + 86400000 / 1000
  /\ exists token,
      Auth.signToken Sample.env Sample.t0 "6553f100000000004d000005" "ann@example.org"
        = Ok token
      /\ forall header, header = "Bearer " +:+ token \/ header = token ->
         exists decoded,
           Auth.auth Sample.env Sample.t1 (Some header) = Express.Next decoded
           /\ Jwt.sub_id decoded = "6553f100000000004d000005"
           /\ Jwt.sub_email decoded = "ann@example.org".
Proof.
  split; [reflexivity|]. split; [reflexivity|].
  apply (issue_then_verify_roundtrip Sample.env Sample.t0 Sample.t1
           "6553f100000000004d000005" "ann@example.org" 86400000);
    reflexivity.
Defined.

(** C2 at the header "Bearer " with nothing after it, in front of the
    handler of [GET /me]. *)
Lemma gate_rejects_unauthenticated_witness :
  Auth.me Sample.env Sample.t0 (Some "Bearer ") [] =
    (Auth.Message 401 true "No token provided", []).
Proof.
  destruct (gate_rejects_unauthenticated Sample.env Sample.t0 (Some "Bearer "))
    as (Hempty & _ & _ & _ & _ & Hskip).
  apply Hskip, Hempty. reflexivity.
Defined.




(** C5: a login for an address nobody registered, and a login with a
    wrong password for the address Ann registered. *)
Lemma login_failures_identical_witness :
  let registered := (Auth.signup Sample.env Sample.t0 Sample.ann []).2 in
  let right_address (p : string) : Auth.Body :=
    {| Auth.name := None; Auth.email := Some "ann@example.org";
       Auth.password := Some p |} in
  Auth.login Sample.env Sample.t1 (right_address "123456") []
    = Auth.login Sample.env Sample.t2 (right_address "wrong!") registered
  /\ Auth.login Sample.env Sample.t1 (right_address "123456") []
    = Auth.Message 401 true "Invalid credentials"
  /\ status (Auth.login Sample.env Sample.t2 (right_address "wrong!") registered) = 401.
Proof.
  intros registered right_address.
  apply (login_failures_identical Sample.env Sample.env Sample.t1 Sample.t2
           (right_address "123456") (right_address "wrong!")
           "ann@example.org" "123456" "wrong!" [] registered
           (default ∅ (head registered)));
    first [reflexivity | discriminate | by vm_compute].
Defined.

(** C6 at Ann's signup. *)
Lemma signup_view_without_password_witness :
  exists token user,
    (Auth.signup Sample.env Sample.t0 Sample.ann []).2 = [] ++ [user]
    /\ user !! "password" = Some (VStr (Auth.hashPassword "123456"))
    /\ body (Auth.signup Sample.env Sample.t0 Sample.ann []).1 =
         Json (JObj [("isError", JBool false);
                     ("Message", JStr "User created");
                     ("token", JStr token);
                     ("user", JDoc (delete "password" user))])
    /\ delete "password" user !! "password" = None.
Proof.
  destruct (signup_view_without_password Sample.env Sample.t0 Sample.ann []
              (Auth.signup Sample.env Sample.t0 Sample.ann []).1
              (Auth.signup Sample.env Sample.t0 Sample.ann []).2)
    as [[_ Hview]|H500];
    first [exact Hview | reflexivity | discriminate | by vm_compute
          | apply surjective_pairing].
Defined.


(** C8 at an id of three letters. *)
Lemma image_fetch_validates_id_witness :
  Backend.get_user_image Sample.backend_env [] "xyz" =
    Backend.failure 400 "Invalid user ID format".
Proof.
  apply (image_fetch_validates_id Sample.backend_env [] "xyz"). reflexivity.
Defined.

(** C10 at the same id. *)
Lemma metadata_fetch_of_malformed_id_witness :
  ObjectId.isValid "xyz" = false
  /\ status (Backend.get_user [] "xyz") = 500
  /\ status (Backend.get_user_image Sample.backend_env [] "xyz") = 400.
Proof.
  split; [reflexivity|].
  apply (metadata_fetch_of_malformed_id Sample.backend_env [] "xyz"). reflexivity.
Defined.

(** * Further properties of the handlers *)

(** ** Collections *)

Section CollectionFacts.

Implicit Types (o : bytes) (d : doc) (users : list doc).

Lemma find_None_Forall {A} (f : A -> bool) (l : list A) :
  List.find f l = None -> Forall (fun x => f x = false) l.
Proof.
  induction l as [|x l IH]; cbn; [constructor|].
  destruct (f x) eqn:Hx; [done|]. intros Hl. constructor; auto.
Qed.

Lemma find_app_new {A} (f : A -> bool) (l : list A) (x : A) :
  List.find f l = None -> f x = true -> List.find f (l ++ [x]) = Some x.
Proof.
  intros Hl Hx. induction l as [|y l IH]; cbn in *; [by rewrite Hx|].
  destruct (f y); [done|]. auto.
Qed.

Lemma find_app_old {A} (f : A -> bool) (l l' : list A) (x : A) :
  List.find f l = Some x -> List.find f (l ++ l') = Some x.
Proof.
  induction l as [|y l IH]; cbn; [done|]. destruct (f y); auto.
Qed.

Lemma existsb_false_find {A} (f : A -> bool) (l : list A) :
  existsb f l = false -> List.find f l = None.
Proof.
  induction l as [|y l IH]; cbn; [done|].
  intros [Hy Hl]%orb_false_iff. rewrite Hy. auto.
Qed.

(** An id no document has is not among the ids. *)
Lemma fresh_not_in_ids users o :
  existsb (Mongoose.has_id o) users = false -> o ∉ omap Read.id_of users.
Proof.
  intros Hf (d & Hd & Hid)%list_elem_of_omap.
  apply existsb_false_find, find_None_Forall in Hf.
  rewrite Forall_forall in Hf. specialize (Hf d Hd).
  unfold Mongoose.has_id in Hf. apply bool_decide_eq_false in Hf. apply Hf.
  unfold Read.id_of in Hid. destruct (d !! "_id") as [[]|]; congruence.
Qed.


Lemma omap_snoc {A B} (f : A -> option B) (l : list A) (x : A) :
  omap f (l ++ [x]) = omap f l ++ match f x with Some y => [y] | None => [] end.
Proof.
  induction l as [|y l IH]; cbn; [by destruct (f x)|].
  rewrite IH. by destruct (f y).
Qed.

Lemma NoDup_snoc {A} (l : list A) (x : A) : NoDup l -> x ∉ l -> NoDup (l ++ [x]).
Proof.
  intros Hl Hx. apply NoDup_app. split; [done|]. split; [|apply NoDup_singleton].
  intros y Hy ->%list_elem_of_singleton. done.
Qed.

(** What an insert does to the two uniqueness properties. *)
Lemma insert_unique_ids users o d d' users' :
  Mongoose.insert users o d = Ok (d', users') ->
  Read.unique_ids users -> Read.unique_ids users'.
Proof.
  intros (Hfresh & -> & ->)%insert_Ok Hu. unfold Read.unique_ids.
  rewrite omap_snoc. unfold Read.id_of at 2. rewrite lookup_insert_eq.
  apply NoDup_snoc; [done|]. by apply fresh_not_in_ids.
Qed.

(** Among unique ids, the first document with an id is the only one. *)
Lemma find_unique users o d :
  Read.unique_ids users -> d ∈ users -> d !! "_id" = Some (VId o) ->
  List.find (Mongoose.has_id o) users = Some d.
Proof.
  unfold Read.unique_ids. induction users as [|x users IH]; intros Hu Hd Hid.
  - by apply elem_of_nil in Hd.
  - cbn. unfold Mongoose.has_id at 1. case_bool_decide as Hx.
    + apply elem_of_cons in Hd as [->|Hd]; [done|]. exfalso.
      cbn in Hu. unfold Read.id_of at 1 in Hu. rewrite Hx in Hu.
      apply NoDup_cons in Hu as [Hno _]. apply Hno.
      apply list_elem_of_omap. exists d. split; [done|].
      unfold Read.id_of. by rewrite Hid.
    + apply elem_of_cons in Hd as [->|Hd]; [congruence|].
      apply IH; [|done..]. cbn in Hu.
      destruct (Read.id_of x); [by apply NoDup_cons in Hu as [_ ?]|done].
Qed.

End CollectionFacts.

(** ** au.js, further *)

Section AuthMore.

Context `{Jwt.Primitives} `{Auth.Validator} `{Auth.UserModel}.

Implicit Types (env : Auth.Env) (b : Auth.Body) (users : list doc).

Lemma signToken_Ok_inv env sys id email token :
  Auth.signToken env sys id email = Ok token ->
  JS.falsy_opt (Auth.JWT_SECRET env) = false
  /\ exists span, Jwt.ms (JS.or_else (Auth.JWT_EXPIRES env) "1d") = Some span.
Proof.
  unfold Auth.signToken, Jwt.sign.
  destruct (JS.falsy_opt _); [done|]. destruct (Jwt.ms _) as [span|]; [|done].
  intros _. split; [done|]. by exists span.
Qed.

Lemma account_fields sys n e p :
  Mongoose.id_field (Read.account sys n e p) = ObjectId.toHexString (Mongoose.fresh_id sys)
  /\ Mongoose.str_field (Read.account sys n e p) "email" = e
  /\ Mongoose.str_field (Read.account sys n e p) "password" = Auth.hashPassword p
  /\ Read.email_of (Read.account sys n e p) = Some e
  /\ Read.account sys n e p !! "_id" = Some (VId (Mongoose.fresh_id sys)).
Proof.
  unfold Mongoose.id_field, Mongoose.str_field, Read.email_of, Read.account.
  repeat split; by simplify_map_eq.
Qed.

(** Every way a signup can end. *)
Lemma signup_cases env sys b users :
  let n := JS.trim (default EmptyString (Auth.name b)) in
  let e := default EmptyString (Auth.email b) in
  let p := default EmptyString (Auth.password b) in
  let r := (Auth.signup env sys b users).1 in
  let users' := (Auth.signup env sys b users).2 in
  (~ Read.signup_valid b /\ status r = 400 /\ users' = users)
  \/ (Read.signup_valid b /\ is_Some (Mongoose.findOne users "email" e)
      /\ r = Auth.Message 409 true "Email already in use" /\ users' = users)
  \/ (Read.signup_valid b /\ Mongoose.findOne users "email" e = None
      /\ existsb (Mongoose.has_id (Mongoose.fresh_id sys)) users = true
      /\ r = Auth.Message 500 true "Internal server error" /\ users' = users)
  \/ (Read.signup_valid b /\ Mongoose.findOne users "email" e = None
      /\ existsb (Mongoose.has_id (Mongoose.fresh_id sys)) users = false
      /\ users' = users ++ [Read.account sys n e p]
      /\ ((exists err, Auth.signToken env sys
                        (ObjectId.toHexString (Mongoose.fresh_id sys)) e = Throw err)
           /\ r = Auth.Message 500 true "Internal server error"
          \/ exists token,
               Auth.signToken env sys
                 (ObjectId.toHexString (Mongoose.fresh_id sys)) e = Ok token
               /\ r = json 201 [("isError", JBool false);
                                ("Message", JStr "User created");
                                ("token", JStr token);
                                ("user", JDoc (delete "password" (Read.account sys n e p)))])).
Proof.
  intros n e p. unfold Auth.signup, Read.signup_valid. fold n e p. cbv zeta.
  destruct (JS.falsy n) eqn:Hn; cbn [negb Auth.check app].
  { left. split; [|done]. intros [Hne _]. by apply falsy_false in Hne; congruence. }
  apply falsy_false in Hn.
  destruct (Auth.isEmail e) eqn:He; cbn [Auth.check app].
  2: { left. split; [|done]. by intros (_ & ? & _). }
  case_bool_decide as Hp; cbn [Auth.check app].
  2: { left. split; [|done]. by intros (_ & _ & ?). }
  right. destruct (Mongoose.findOne users "email" e) as [u|] eqn:Hfind.
  { left. cbn. repeat split; eauto. }
  right. unfold Auth.User_create, Mongoose.insert.
  destruct (existsb _ users) eqn:Hfresh.
  { left. cbn. repeat split; eauto. }
  right. fold (Read.account sys n e p).
  destruct (account_fields sys n e p) as (-> & -> & _).
  destruct (Auth.signToken _ _ _ _) as [token|err] eqn:Htok; cbn [fst snd].
  - repeat split; try done. right. by exists token.
  - repeat split; try done. left. split; [by exists err|done].
Qed.

(** What a signup that does not validate is answered: 400 with the
    failed checks in the order name, email, password. *)
Lemma signup_invalid env sys b users :
  ~ Read.signup_valid b ->
  Auth.signup env sys b users =
    (json 400
       [("isError", JBool true);
        ("errors",
         JArr (Auth.check (negb (JS.falsy (JS.trim (default EmptyString (Auth.name b)))))
                 "name" "Name is required"
               ++ Auth.check (Auth.isEmail (default EmptyString (Auth.email b)))
                    "email" "Valid email required"
               ++ Auth.check (bool_decide
                    (6 <= String.length (default EmptyString (Auth.password b)))%nat)
                    "password" "Min 6 chars password"))], users).
Proof.
  intros Hinv. unfold Auth.signup.
  destruct (JS.falsy _) eqn:Hn; cbn [negb Auth.check app]; [done|].
  destruct (Auth.isEmail _) eqn:He; cbn [Auth.check app]; [|done].
  case_bool_decide as Hp; cbn [Auth.check app]; [|done].
  destruct Hinv. by apply falsy_false in Hn.
Qed.

(** X1. A signup whose body fails a check is answered 400 with the failed
    checks, and one whose email is registered is answered 409; neither
    looks at the clock or the environment, and neither writes. *)
Theorem signup_rejections_write_nothing env sys b users :
  (~ Read.signup_valid b ->
     status (Auth.signup env sys b users).1 = 400
     /\ (Auth.signup env sys b users).2 = users
     /\ forall env' sys' users',
          (Auth.signup env' sys' b users').1 = (Auth.signup env sys b users).1)
  /\ (Read.signup_valid b ->
      is_Some (Mongoose.findOne users "email" (default EmptyString (Auth.email b))) ->
      Auth.signup env sys b users =
        (Auth.Message 409 true "Email already in use", users)).
Proof.
  split.
  - intros Hinv. rewrite (signup_invalid env sys b users Hinv).
    repeat split. intros env' sys' users'. by rewrite (signup_invalid env' sys' b users' Hinv).
  - intros Hv [u Hu].
    destruct (signup_cases env sys b users)
      as [(Hn & _)|[(_ & _ & Hr & Hu')|[(_ & Hno & _)|(_ & Hno & _)]]];
      [done| |congruence..].
    rewrite (surjective_pairing (Auth.signup env sys b users)). by rewrite Hr, Hu'.
Qed.


(** X3. With no signing secret configured, a valid signup for a new email
    is answered 500 although the account has been stored: the same signup
    again is answered 409. *)
Theorem signup_without_secret_stores_then_fails env sys sys' b users :
  Read.signup_valid b ->
  Mongoose.findOne users "email" (default EmptyString (Auth.email b)) = None ->
  existsb (Mongoose.has_id (Mongoose.fresh_id sys)) users = false ->
  JS.falsy_opt (Auth.JWT_SECRET env) = true ->
  let stored := Read.account sys (JS.trim (default EmptyString (Auth.name b)))
                  (default EmptyString (Auth.email b))
                  (default EmptyString (Auth.password b)) in
  Auth.signup env sys b users =
    (Auth.Message 500 true "Internal server error", users ++ [stored])
  /\ Auth.signup env sys' b (users ++ [stored]) =
      (Auth.Message 409 true "Email already in use", users ++ [stored]).
Proof.
  intros Hv Hno Hfresh Hsec stored. split.
  - destruct (signup_cases env sys b users)
      as [(Hn & _)|[(_ & [u Hu] & _)|[(_ & _ & Hf & _)|(_ & _ & _ & Hs & Hr)]]];
      [done|congruence|congruence|].
    rewrite (surjective_pairing (Auth.signup env sys b users)), Hs.
    destruct Hr as [[_ ->]|(token & Htok & _)]; [done|].
    apply signToken_Ok_inv in Htok as [Hsec' _]. congruence.
  - destruct (account_fields sys (JS.trim (default EmptyString (Auth.name b)))
                (default EmptyString (Auth.email b))
                (default EmptyString (Auth.password b))) as (_ & _ & _ & He & _).
    assert (Mongoose.findOne (users ++ [stored]) "email"
              (default EmptyString (Auth.email b)) = Some stored) as Hfound.
    { apply find_app_new; [done|]. apply bool_decide_eq_true.
      unfold Read.email_of in He. fold stored in He.
      destruct (stored !! "email") as [[]|]; congruence. }
    destruct (signup_cases env sys' b (users ++ [stored]))
      as [(Hn & _)|[(_ & _ & Hr & Hu')|[(_ & Hno' & _)|(_ & Hno' & _)]]];
      [done| |congruence..].
    rewrite (surjective_pairing (Auth.signup env sys' b (users ++ [stored]))).
    by rewrite Hr, Hu'.
Qed.

(** A login that finds the account and matches the password. *)
Lemma login_found env sys b users e p u token :
  Auth.email b = Some e -> Auth.password b = Some p ->
  Auth.isEmail e = true -> p <> EmptyString ->
  Mongoose.findOne users "email" e = Some u ->
  Auth.matchPassword (Mongoose.str_field u "password") p = true ->
  Auth.signToken env sys (Mongoose.id_field u) (Mongoose.str_field u "email") = Ok token ->
  Auth.login env sys b users =
    json 200 [("isError", JBool false); ("Message", JStr "Login success");
              ("token", JStr token); ("user", JDoc (delete "password" u))].
Proof.
  intros He Hp Hmail Hne%falsy_false Hu Hpw Htok. unfold Auth.login.
  rewrite He, Hp. cbn [from_option id]. rewrite Hmail, Hne.
  cbn [negb Auth.check app]. by rewrite Hu, Hpw, Htok.
Qed.

(** Behind a gate that let a token through, [GET /me] is its handler. *)
Lemma me_signed env sys c users :
  JS.falsy_opt (Auth.JWT_SECRET env) = false ->
  (forall e, Jwt.exp c = Some e -> now sys / 1000 < e) ->
  Auth.me env sys
    (Some ("Bearer " +:+ Jwt.compact c (default EmptyString (Auth.JWT_SECRET env)))) users
  = Auth.me_handler c users.
Proof.
  intros Hs Hexp. unfold Auth.me.
  by rewrite auth_unfold, bearer_prefixed, compact_nonempty, verify_signed.
Qed.

(** X4. After a signup answered 201, a login with the same email and
    password on the collection it left is answered 200 with the same user
    view, provided the stored hash of a password matches that password. *)
Theorem signup_then_login env sys sys' b b' users r users' :
  Auth.signup env sys b users = (r, users') -> status r = 201 ->
  Auth.email b' = Some (default EmptyString (Auth.email b)) ->
  Auth.password b' = Some (default EmptyString (Auth.password b)) ->
  Auth.matchPassword (Auth.hashPassword (default EmptyString (Auth.password b)))
    (default EmptyString (Auth.password b)) = true ->
  exists token view,
    Read.user_view r = Some view
    /\ view !! "email" = Some (VStr (default EmptyString (Auth.email b)))
    /\ Auth.login env sys' b' users' =
        json 200 [("isError", JBool false); ("Message", JStr "Login success");
                  ("token", JStr token); ("user", JDoc view)].
Proof.
  intros Hsign H201 He' Hp' Hmatch.
  set (n := JS.trim (default EmptyString (Auth.name b))) in *.
  set (e := default EmptyString (Auth.email b)) in *.
  set (p := default EmptyString (Auth.password b)) in *.
  destruct (signup_cases env sys b users)
    as [(_ & H400 & _)|[(_ & _ & Hr & _)|[(_ & _ & _ & Hr & _)
        |((_ & Hmail & Hlen) & Hno & Hfresh & Hus & Hr)]]];
    rewrite Hsign in *; cbn [fst snd] in *;
    [congruence|by subst r|by subst r|].
  fold n e p in Hus, Hr.
  destruct Hr as [[_ ->]|(token & Htok & ->)]; [done|].
  destruct (account_fields sys n e p) as (Hid & Hem & Hpw & Hemail & _).
  apply signToken_Ok_inv in Htok as (Hs & span & Hm).
  eexists _, (delete "password" (Read.account sys n e p)).
  split; [done|]. split.
  { rewrite lookup_delete_ne by done. unfold Read.email_of in Hemail.
    destruct (Read.account sys n e p !! "email") as [[]|]; congruence. }
  subst users'.
  eapply (login_found env sys' b' _ e p (Read.account sys n e p) _ He' Hp' Hmail).
  - intros Hp. unfold p in Hp. rewrite Hp in Hlen. cbn in Hlen. lia.
  - apply find_app_new; [done|]. apply bool_decide_eq_true.
    unfold Read.email_of in Hemail.
    destruct (Read.account sys n e p !! "email") as [[]|]; congruence.
  - by rewrite Hpw.
  - rewrite Hid, Hem. by apply signToken_ok.
Qed.

(** X5. The token of a 201 signup, presented to [GET /me] before it
    expires, is answered 200 with the user view of the signup, and the
    collection stays as the signup left it. *)
Theorem signup_token_opens_me env sys sys' b users r users' span :
  Auth.signup env sys b users = (r, users') -> status r = 201 ->
  Jwt.ms (JS.or_else (Auth.JWT_EXPIRES env) "1d") = Some span ->
  now sys' / 1000 < now sys / 1000 + span / 1000 ->
  exists token view,
    Read.token r = Some token
    /\ Read.user_view r = Some view
    /\ Auth.me env sys' (Some ("Bearer " +:+ token)) users' =
        (json 200 [("isError", JBool false); ("user", JDoc view)], users').
Proof.
  intros Hsign H201 Hm Ht.
  set (n := JS.trim (default EmptyString (Auth.name b))) in *.
  set (e := default EmptyString (Auth.email b)) in *.
  set (p := default EmptyString (Auth.password b)) in *.
  destruct (signup_cases env sys b users)
    as [(_ & H400 & _)|[(_ & _ & Hr & _)|[(_ & _ & _ & Hr & _)
        |(_ & Hno & Hfresh & Hus & Hr)]]];
    rewrite Hsign in *; cbn [fst snd] in *;
    [congruence|by subst r|by subst r|].
  fold n e p in Hus, Hr.
  destruct Hr as [[_ ->]|(token & Htok & ->)]; [done|].
  pose proof Htok as (Hs & _)%signToken_Ok_inv.
  pose proof (signToken_ok env sys (ObjectId.toHexString (Mongoose.fresh_id sys)) e
                span Hs Hm) as Htok'.
  assert (token = Jwt.compact
            {| Jwt.sub_id := ObjectId.toHexString (Mongoose.fresh_id sys);
               Jwt.sub_email := e; Jwt.iat := now sys / 1000;
               Jwt.exp := Some (now sys / 1000 + span / 1000) |}
            (default EmptyString (Auth.JWT_SECRET env))) as -> by congruence.
  eexists _, _. split; [done|]. split; [done|].
  rewrite me_signed; [|done|by intros ? [= <-]].
  unfold Auth.me_handler, Mongoose.findById. cbn [Jwt.sub_id].
  rewrite cast_toHexString by apply fresh_id_length. subst users'.
  rewrite find_app_last; [done|done|].
  apply bool_decide_eq_true. apply account_fields.
Qed.

(** X6. A token that passes the gate does not make [GET /me] succeed by
    itself: when the id it carries is not an ObjectId the answer is 500,
    when no account has the id (the account is gone) it is 404, and only a
    stored account is answered, without its password. It never writes. *)
Theorem me_with_a_valid_token env issued checked id email span users :
  JS.falsy_opt (Auth.JWT_SECRET env) = false ->
  Jwt.ms (JS.or_else (Auth.JWT_EXPIRES env) "1d") = Some span ->
  now checked / 1000 < now issued / 1000 + span / 1000 ->
  exists token,
    Auth.signToken env issued id email = Ok token
    /\ Auth.me env checked (Some ("Bearer " +:+ token)) users =
        (match ObjectId.cast id with
         | None => Auth.Message 500 true "Internal server error"
         | Some o =>
             match List.find (Mongoose.has_id o) users with
             | None => Auth.Message 404 true "User not found"
             | Some u =>
                 json 200 [("isError", JBool false);
                           ("user", JDoc (delete "password" u))]
             end
         end, users).
Proof.
  intros Hs Hm Ht. eexists. split; [by apply signToken_ok|].
  rewrite me_signed; [|done|by intros ? [= <-]].
  unfold Auth.me_handler, Mongoose.findById. cbn [Jwt.sub_id].
  destruct (ObjectId.cast id) as [o|]; [|done].
  by destruct (List.find _ users).
Qed.

(** X7. Whatever the request, a user view in an answer of [POST /signup],
    [POST /login] or [GET /me] has no [password] field. *)
Theorem user_views_carry_no_password env sys b authorization users view :
  Read.user_view (Auth.signup env sys b users).1 = Some view
  \/ Read.user_view (Auth.login env sys b users) = Some view
  \/ Read.user_view (Auth.me env sys authorization users).1 = Some view ->
  view !! "password" = None.
Proof.
  intros [Hv|[Hv|Hv]]; revert Hv.
  - unfold Auth.signup.
    destruct (_ ++ _ ++ _); [|done].
    destruct (Mongoose.findOne _ _ _); [done|].
    destruct (Auth.User_create _ _ _ _ _) as [[u us]|]; [|done].
    destruct (Auth.signToken _ _ _ _); [|done].
    intros [= <-]. apply lookup_delete_eq.
  - unfold Auth.login.
    destruct (_ ++ _); [|done].
    destruct (Mongoose.findOne _ _ _); [|done].
    destruct (negb _); [done|].
    destruct (Auth.signToken _ _ _ _); [|done].
    intros [= <-]. apply lookup_delete_eq.
  - unfold Auth.me, Express.route.
    destruct (Auth.auth _ _ _) as [r|c|e] eqn:Hg; cbn [fst].
    + revert Hg. rewrite auth_unfold. destruct (JS.falsy _); [by intros [= <-]|].
      destruct (Jwt.verify _ _ _); [done|]. by intros [= <-].
    + unfold Auth.me_handler. destruct (Mongoose.findById _ _) as [[u|]|]; [|done..].
      intros [= <-]. apply lookup_delete_eq.
    + done.
Qed.

(** X8. With [JWT_EXPIRES] unset or empty a token lives one day to the
    second: the gate lets it through while the clock, in whole seconds, is
    less than 86400 past the second of issue, and turns it away from
    then on. *)
Theorem default_token_lifetime env issued checked id email :
  JS.falsy_opt (Auth.JWT_SECRET env) = false ->
  JS.falsy_opt (Auth.JWT_EXPIRES env) = true ->
  exists token,
    Auth.signToken env issued id email = Ok token
    /\ Auth.auth env checked (Some ("Bearer " +:+ token)) =
        if now checked / 1000 <? now issued / 1000 + 86400
        then Express.Next {| Jwt.sub_id := id; Jwt.sub_email := email;
                             Jwt.iat := now issued / 1000;
                             Jwt.exp := Some (now issued / 1000 + 86400) |}
        else Express.Respond (Auth.Message 401 true "Invalid/Expired token").
Proof.
  intros Hs Hexp.
  assert (Jwt.ms (JS.or_else (Auth.JWT_EXPIRES env) "1d") = Some 86400000) as Hm.
  { destruct (Auth.JWT_EXPIRES env) as [x|]; cbn in *; [rewrite Hexp|]; apply Jwt.ms_1d. }
  eexists. split; [by apply signToken_ok|].
  change (86400000 / 1000) with 86400.
  destruct (Z.ltb_spec (now checked / 1000) (now issued / 1000 + 86400)) as [Hlt|Hge].
  - rewrite auth_unfold, bearer_prefixed, compact_nonempty.
    by rewrite verify_signed; [|done|intros ? [= <-]].
  - apply (expired_token_rejected env issued checked id email 86400000 _ Hs Hm).
    + exact (signToken_ok env issued id email 86400000 Hs Hm).
    + exact Hge.
Qed.

(** X9. A token issued under one secret is turned away by a gate that
    holds another, whenever the two secrets give the signing input of the
    token different signatures. *)
Theorem token_of_another_secret_rejected env env' issued checked id email token :
  Auth.signToken env issued id email = Ok token ->
  (forall m, Jwt.mac Jwt.HS256 (default EmptyString (Auth.JWT_SECRET env')) m
             <> Jwt.mac Jwt.HS256 (default EmptyString (Auth.JWT_SECRET env)) m) ->
  Auth.auth env' checked (Some ("Bearer " +:+ token)) =
    Express.Respond (Auth.Message 401 true "Invalid/Expired token").
Proof.
  intros Htok Hmac. pose proof Htok as (Hs & span & Hm)%signToken_Ok_inv.
  set (c := {| Jwt.sub_id := id; Jwt.sub_email := email;
               Jwt.iat := now issued / 1000;
               Jwt.exp := Some (now issued / 1000 + span / 1000) |}).
  set (k := default EmptyString (Auth.JWT_SECRET env)).
  pose proof (signToken_ok env issued id email span Hs Hm) as Htok'.
  assert (token = Jwt.compact c k) as -> by (unfold c, k; congruence).
  rewrite auth_unfold, bearer_prefixed, compact_nonempty.
  destruct (verify_bad_signature (Jwt.compact c k) (Auth.JWT_SECRET env')
              (now checked / 1000) Jwt.jose_header (Jwt.enc_payload c)
              (Jwt.mac Jwt.HS256 k (Jwt.jose_header +:+ "." +:+ Jwt.enc_payload c))
              Jwt.HS256) as [err ->]; try done.
  - apply split_token;
      auto using b64url_jose_header, Jwt.enc_payload_b64url, Jwt.mac_b64url.
  - apply Jwt.dec_jose_header.
Qed.

End AuthMore.

(** ** imageuploader/backend.js, further *)

Section BackendMore.

Implicit Types (f : Multer.File) (req : Multer.Form) (users : list doc).

Lemma trimStart_head s c r : JS.trimStart s = String c r -> JS.is_white c = false.
Proof.
  induction s as [|x s IH]; cbn; [done|].
  destruct (JS.is_white x) eqn:Hx; [done|]. by intros [= <- _].
Qed.

Lemma trimEnd_cons c s x t :
  JS.trimEnd s = String x t -> JS.trimEnd (String c s) = String c (String x t).
Proof. intros Hs. cbn [JS.trimEnd]. by rewrite Hs. Qed.

Lemma trimEnd_idem s : JS.trimEnd (JS.trimEnd s) = JS.trimEnd s.
Proof.
  induction s as [|c s IH]; [done|].
  destruct (JS.trimEnd s) as [|x t] eqn:Ht.
  - cbn [JS.trimEnd]. rewrite Ht.
    destruct (JS.is_white c) eqn:Hc; [done|]. cbn. by rewrite Hc.
  - rewrite (trimEnd_cons c s x t Ht). by apply trimEnd_cons.
Qed.

Lemma trimEnd_head c r :
  JS.is_white c = false -> exists r', JS.trimEnd (String c r) = String c r'.
Proof.
  intros Hc. cbn [JS.trimEnd]. destruct (JS.trimEnd r); rewrite ?Hc; eauto.
Qed.

(** Trimming twice is trimming once. *)
Lemma trim_idem s : JS.trim (JS.trim s) = JS.trim s.
Proof.
  unfold JS.trim. destruct (JS.trimStart s) as [|c r] eqn:Hs; [done|].
  destruct (trimEnd_head c r (trimStart_head _ _ _ Hs)) as [r' Hr].
  rewrite Hr. cbn [JS.trimStart]. rewrite (trimStart_head _ _ _ Hs).
  rewrite <- Hr. apply trimEnd_idem.
Qed.

Lemma trim_nonempty s : JS.trim s <> EmptyString -> JS.falsy s = false.
Proof. destruct s; [done|]. done. Qed.

(** One image within the limit, in the field [image], gets through. *)
Lemma single_accepts req f :
  Multer.files req = [f] -> Multer.fieldname f = "image" ->
  JS.startsWith (Multer.mimetype f) "image/" = true ->
  Multer.size f <= 5 * 1024 * 1024 ->
  Multer.single Backend.upload "image" req = Express.Next (Multer.fields req, Some f).
Proof.
  intros Hf Hn Hi Hsz. unfold Multer.single. rewrite Hf. cbn [Multer.accept].
  rewrite bool_decide_eq_true_2 by done. cbn [negb].
  unfold Backend.upload at 1. cbn [Multer.fileFilter]. unfold Backend.fileFilter.
  rewrite Hi. cbn [Backend.upload Multer.fileSize].
  destruct (Z.ltb_spec (5 * 1024 * 1024) (Multer.size f)); [lia|done].
Qed.

(** What the handler does with a request that got through the upload. *)
Lemma handler_cases sys (texts : gmap string string) file users :
  let r := (Backend.post_users_handler sys (texts, file) users).1 in
  let users' := (Backend.post_users_handler sys (texts, file) users).2 in
  (users' = users /\ status r <> 201)
  \/ exists n m a f,
       texts !! "name" = Some n /\ texts !! "mobile" = Some m
       /\ texts !! "address" = Some a /\ file = Some f
       /\ JS.trim n <> EmptyString /\ JS.trim m <> EmptyString
       /\ JS.trim a <> EmptyString
       /\ existsb (Mongoose.has_id (Mongoose.fresh_id sys)) users = false
       /\ users' = users ++ [Read.profile sys (JS.trim n) (JS.trim m) (JS.trim a) f]
       /\ r = Read.created (Read.profile sys (JS.trim n) (JS.trim m) (JS.trim a) f).
Proof.
  unfold Backend.post_users_handler. cbn [fst snd].
  destruct (texts !! "name") as [n|]; [|by left].
  destruct (texts !! "mobile") as [m|]; [|left; cbn; by rewrite orb_true_r].
  destruct (texts !! "address") as [a|]; [|left; cbn; by rewrite orb_true_r].
  destruct (_ || _ || _); [by left|].
  destruct file as [f|]; [|by left]. cbn [from_option id].
  unfold Backend.User_save, Backend.required_paths.
  destruct (JS.falsy (JS.trim n)) eqn:Hn; [by left|].
  destruct (JS.falsy (JS.trim m)) eqn:Hm; [by left|].
  destruct (JS.falsy (JS.trim a)) eqn:Ha; [by left|].
  cbn [app]. unfold Mongoose.insert.
  destruct (existsb _ users) eqn:Hfresh; [by left|].
  right. exists n, m, a, f. apply falsy_false in Hn, Hm, Ha. by repeat split.
Qed.

(** Every way an ingest can end: without a write and without a 201, or
    with one image and three texts that are not blank stored under a free
    id. *)
Lemma post_users_cases sys req users :
  let r := (Backend.post_users sys req users).1 in
  let users' := (Backend.post_users sys req users).2 in
  (users' = users /\ status r <> 201)
  \/ exists n m a f,
       Multer.files req = [f]
       /\ JS.startsWith (Multer.mimetype f) "image/" = true
       /\ Multer.fields req !! "name" = Some n
       /\ Multer.fields req !! "mobile" = Some m
       /\ Multer.fields req !! "address" = Some a
       /\ existsb (Mongoose.has_id (Mongoose.fresh_id sys)) users = false
       /\ users' = users ++ [Read.profile sys (JS.trim n) (JS.trim m) (JS.trim a) f]
       /\ r = Read.created (Read.profile sys (JS.trim n) (JS.trim m) (JS.trim a) f).
Proof.
  unfold Backend.post_users, Express.route.
  destruct (single_outcome req) as [[file Hs]|[e Hs]]; rewrite Hs; cbv zeta.
  - apply single_Next in Hs as [_ Hfile].
    destruct (handler_cases sys (Multer.fields req) file users)
      as [?|(n & m & a & f & Hn & Hm & Ha & -> & _ & _ & _ & Hfresh & Hus & Hr)];
      [by left|].
    right. exists n, m, a, f.
    destruct Hfile as [[_ [=]]|(f' & Hf & [= <-] & _ & Hi & _)]. by split_and!.
  - left. cbn [fst snd]. split; [done|].
    pose proof (finalhandler_status e). lia.
Qed.

Lemma profile_fields sys n m a f :
  Read.profile sys n m a f !! "_id" = Some (VId (Mongoose.fresh_id sys))
  /\ Read.profile sys n m a f !! "name" = Some (VStr n)
  /\ Read.profile sys n m a f !! "mobile" = Some (VStr m)
  /\ Read.profile sys n m a f !! "address" = Some (VStr a)
  /\ Read.profile sys n m a f !! "createdAt" = Some (VDate (now sys))
  /\ Backend.image_data (Read.profile sys n m a f) = Some (Multer.buffer f)
  /\ Backend.image_contentType (Read.profile sys n m a f) = Some (Multer.mimetype f).
Proof.
  unfold Backend.image_data, Backend.image_contentType, Read.profile.
  repeat split; by simplify_map_eq.
Qed.


(** The ingest that succeeds. *)
Lemma post_users_created sys req f n m a users :
  Multer.files req = [f] -> Multer.fieldname f = "image" ->
  JS.startsWith (Multer.mimetype f) "image/" = true ->
  Multer.size f <= 5 * 1024 * 1024 ->
  Multer.fields req !! "name" = Some n -> Multer.fields req !! "mobile" = Some m ->
  Multer.fields req !! "address" = Some a ->
  JS.trim n <> EmptyString -> JS.trim m <> EmptyString -> JS.trim a <> EmptyString ->
  existsb (Mongoose.has_id (Mongoose.fresh_id sys)) users = false ->
  Backend.post_users sys req users =
    (Read.created (Read.profile sys (JS.trim n) (JS.trim m) (JS.trim a) f),
     users ++ [Read.profile sys (JS.trim n) (JS.trim m) (JS.trim a) f]).
Proof.
  intros Hf Hfn Hi Hsz Hn Hm Ha Hn' Hm' Ha' Hfresh.
  unfold Backend.post_users. rewrite (single_accepts req f Hf Hfn Hi Hsz).
  cbn [Express.route]. unfold Backend.post_users_handler. cbn [fst snd].
  rewrite Hn, Hm, Ha. cbn [JS.falsy_opt from_option id].
  rewrite !trim_nonempty by done. cbn [orb].
  unfold Backend.User_save, Backend.required_paths.
  apply falsy_false in Hn', Hm', Ha'. rewrite Hn', Hm', Ha'. cbn [app].
  unfold Mongoose.insert. by rewrite Hfresh.
Qed.

(** The ingest whose generated id is taken. *)
Lemma post_users_taken sys req f n m a users :
  Multer.files req = [f] -> Multer.fieldname f = "image" ->
  JS.startsWith (Multer.mimetype f) "image/" = true ->
  Multer.size f <= 5 * 1024 * 1024 ->
  Multer.fields req !! "name" = Some n -> Multer.fields req !! "mobile" = Some m ->
  Multer.fields req !! "address" = Some a ->
  JS.trim n <> EmptyString -> JS.trim m <> EmptyString -> JS.trim a <> EmptyString ->
  existsb (Mongoose.has_id (Mongoose.fresh_id sys)) users = true ->
  Backend.post_users sys req users =
    (Backend.internal_error (JS.err_message Mongoose.DuplicateKey), users).
Proof.
  intros Hf Hfn Hi Hsz Hn Hm Ha Hn' Hm' Ha' Htaken.
  unfold Backend.post_users. rewrite (single_accepts req f Hf Hfn Hi Hsz).
  cbn [Express.route]. unfold Backend.post_users_handler. cbn [fst snd].
  rewrite Hn, Hm, Ha. cbn [JS.falsy_opt from_option id].
  rewrite !trim_nonempty by done. cbn [orb].
  unfold Backend.User_save, Backend.required_paths.
  apply falsy_false in Hn', Hm', Ha'. rewrite Hn', Hm', Ha'. cbn [app].
  unfold Mongoose.insert. by rewrite Htaken.
Qed.


(** X12. After an ingest answered 201, the metadata route answers the id
    of the body with 200 and the stored profile without its image, whose
    name is the trimmed name of the form; and the listing holds that
    same record. *)
Theorem ingest_then_metadata sys req users r users' :
  Backend.post_users sys req users = (r, users') -> status r = 201 ->
  exists id n view,
    Backend.created_id r = Some id
    /\ Multer.fields req !! "name" = Some n
    /\ Backend.get_user users' id =
        json 200 [("success", JBool true); ("data", JDoc view)]
    /\ view !! "name" = Some (VStr (JS.trim n))
    /\ view !! "image" = None
    /\ view ∈ Backend.find_all users'.
Proof.
  intros Hpost H201.
  destruct (post_users_cases sys req users)
    as [[_ Hno]|(n & m & a & f & _ & _ & Hn & _ & _ & Hfresh & Hus & Hr)];
    rewrite Hpost in *; cbn [fst snd] in *; [done|].
  set (saved := Read.profile sys (JS.trim n) (JS.trim m) (JS.trim a) f) in *.
  destruct (profile_fields sys (JS.trim n) (JS.trim m) (JS.trim a) f)
    as (Hid & Hname & _).
  fold saved in Hid, Hname.
  exists (ObjectId.toHexString (Mongoose.fresh_id sys)), n, (delete "image" saved).
  subst r users'. split_and!.
  - unfold Backend.created_id, Read.created, Mongoose.prop, json. cbn [body].
    rewrite Hid. reflexivity.
  - done.
  - unfold Backend.get_user, Mongoose.findById.
    rewrite cast_toHexString by apply fresh_id_length.
    rewrite find_app_last; [done|done|by apply bool_decide_eq_true].
  - by rewrite lookup_delete_ne.
  - apply lookup_delete_eq.
  - unfold Backend.find_all. rewrite sort_desc_perm.
    apply list_elem_of_fmap. exists saved. split; [done|].
    apply elem_of_app. right. by apply list_elem_of_singleton.
Qed.

(** X13. An ingest does not disturb what is stored: an id that found a
    document before it finds the same document after it, so both routes by
    id answer that id as before. *)
Theorem ingest_keeps_earlier_answers env sys req users id u :
  Mongoose.findById users id = Ok (Some u) ->
  let users' := (Backend.post_users sys req users).2 in
  Mongoose.findById users' id = Ok (Some u)
  /\ Backend.get_user users' id = Backend.get_user users id
  /\ Backend.get_user_image env users' id = Backend.get_user_image env users id.
Proof.
  intros Hu users'.
  assert (Mongoose.findById users' id = Ok (Some u)) as Hu'.
  { subst users'.
    destruct (post_users_cases sys req users)
      as [[-> _]|(n & m & a & f & _ & _ & _ & _ & _ & _ & -> & _)]; [done|].
    revert Hu. unfold Mongoose.findById. destruct (ObjectId.cast id); [|done].
    intros [= Hfind]. by rewrite (find_app_old _ _ _ _ Hfind). }
  split; [done|].
  unfold Backend.get_user, Backend.get_user_image. by rewrite Hu, Hu'.
Qed.


(** X15. [upload.single('image')] lets one file through and only in the
    field [image]: a form with two named files or more, or with a named
    file in another field, is answered 500 by the default error handler
    and writes nothing. *)
Theorem extra_or_misplaced_files_rejected sys req users :
  Forall (fun f => Multer.originalname f <> EmptyString) (Multer.files req) ->
  (2 <= length (Multer.files req))%nat
  \/ (exists f, f ∈ Multer.files req /\ Multer.fieldname f <> "image") ->
  exists e,
    Multer.single Backend.upload "image" req = Express.NextErr e
    /\ Backend.post_users sys req users =
        ({| status := 500; headers := []; body := ErrorPage e |}, users).
Proof.
  intros _ Hbad.
  destruct (single_outcome req) as [[file Hs]|[e Hs]].
  - exfalso. apply single_Next in Hs as [_ [[Hnil _]|(g & Hg & _ & Hn & _)]].
    + rewrite Hnil in Hbad. destruct Hbad as [Hlen|(f & Hf & _)];
        [cbn in Hlen; lia|by apply elem_of_nil in Hf].
    + rewrite Hg in Hbad. destruct Hbad as [Hlen|(f & Hf & Hne)];
        [cbn in Hlen; lia|]. apply list_elem_of_singleton in Hf as ->. done.
  - exists e. split; [done|]. unfold Backend.post_users. rewrite Hs.
    cbn [Express.route]. unfold Express.finalhandler, Express.getErrorStatusCode.
    assert (JS.err_status e = None) as ->; [|done].
    revert Hs. unfold Multer.single.
    destruct (Multer.accept _ _ _ _ _) as [file|e'] eqn:Ha; [done|].
    intros [= <-]. by eapply accept_Throw_status.
Qed.

Lemma sort_desc_newest (d : doc) (l : list doc) t :
  Backend.createdAt d = Some t ->
  Forall (fun x => forall t', Backend.createdAt x = Some t' -> t' < t) l ->
  Backend.sort_desc (l ++ [d]) = d :: Backend.sort_desc l.
Proof.
  intros Hd. induction 1 as [|x l Hx _ IH]; [done|].
  cbn [app Backend.sort_desc foldr]. fold (Backend.sort_desc (l ++ [d])).
  fold (Backend.sort_desc l). rewrite IH. cbn [Backend.insert_desc].
  rewrite Hd. destruct (Backend.createdAt x) as [t'|] eqn:Hx'; cbn [Backend.key_le].
  - specialize (Hx t' eq_refl). by destruct (Z.leb_spec t t'); [lia|].
  - done.
Qed.

(** X16. A profile ingested later than every stored one heads the
    listing that follows: the list is the new record, found under the id
    of the 201 body and stamped with the time of the request, before the
    listing as it was. *)
Theorem newest_ingest_listed_first sys req users r users' :
  Backend.post_users sys req users = (r, users') -> status r = 201 ->
  Forall (fun d => forall t, Backend.createdAt d = Some t -> t < now sys) users ->
  exists view,
    Backend.find_all users' = view :: Backend.find_all users
    /\ Backend.created_id r = Some (Frontend.getUserImage view)
    /\ Backend.createdAt view = Some (now sys)
    /\ view !! "image" = None.
Proof.
  intros Hpost H201 Hold.
  destruct (post_users_cases sys req users)
    as [[_ Hno]|(n & m & a & f & _ & _ & _ & _ & _ & _ & Hus & Hr)];
    rewrite Hpost in *; cbn [fst snd] in *; [done|].
  set (saved := Read.profile sys (JS.trim n) (JS.trim m) (JS.trim a) f) in *.
  destruct (profile_fields sys (JS.trim n) (JS.trim m) (JS.trim a) f)
    as (Hid & _ & _ & _ & Hat & _).
  fold saved in Hid, Hat. subst r users'.
  exists (delete "image" saved). split_and!.
  - unfold Backend.find_all. rewrite map_app. cbn [map].
    apply (sort_desc_newest _ _ (now sys)).
    + rewrite createdAt_delete_image. unfold Backend.createdAt. by rewrite Hat.
    + apply Forall_fmap. eapply Forall_impl; [exact Hold|].
      intros x Hx t'. cbn. rewrite createdAt_delete_image. apply Hx.
  - unfold Frontend.getUserImage, Mongoose.id_field.
    rewrite lookup_delete_ne, Hid by done.
    unfold Backend.created_id, Read.created, Mongoose.prop, json. cbn [body].
    rewrite Hid. reflexivity.
  - rewrite createdAt_delete_image. unfold Backend.createdAt. by rewrite Hat.
  - apply lookup_delete_eq.
Qed.

(** What ingests alone have built holds profiles only, each under an
    [_id] of its own and with an image of an image type. *)
Lemma ingested_profiles users :
  Read.ingested users ->
  Read.unique_ids users
  /\ Forall (fun d => exists sys n m a f,
                        d = Read.profile sys n m a f
                        /\ JS.startsWith (Multer.mimetype f) "image/" = true) users.
Proof.
  induction 1 as [|sys req users _ [IHu IHp]]; [split; [constructor|done]|].
  destruct (post_users_cases sys req users)
    as [[-> _]|(n & m & a & f & _ & Hi & _ & _ & _ & Hfresh & -> & _)]; [done|].
  split.
  - unfold Read.unique_ids. rewrite omap_snoc.
    destruct (profile_fields sys (JS.trim n) (JS.trim m) (JS.trim a) f) as (Hid & _).
    unfold Read.id_of at 2. rewrite Hid.
    apply NoDup_snoc; [done|]. by apply fresh_not_in_ids.
  - apply Forall_app. split; [done|]. apply Forall_singleton. by eauto 10.
Qed.

(** X17. In a collection that ingests alone have built, every record of
    the listing can be opened by its own id: the image route answers the
    address [getUserImage] makes of it with 200, bytes and an image type,
    and the metadata route answers the same id with that very record. *)
Theorem listed_profiles_open_by_their_id env users view :
  Read.ingested users -> view ∈ Backend.find_all users ->
  exists data ct,
    JS.startsWith ct "image/" = true
    /\ Backend.get_user_image env users (Frontend.getUserImage view) =
        {| status := 200; headers := [("Content-Type", ct)]; body := Raw data |}
    /\ Backend.get_user users (Frontend.getUserImage view) =
        json 200 [("success", JBool true); ("data", JDoc view)].
Proof.
  intros [Hu Hp]%ingested_profiles Hview.
  unfold Backend.find_all in Hview. rewrite sort_desc_perm in Hview.
  apply list_elem_of_fmap in Hview as (d & -> & Hd).
  rewrite Forall_forall in Hp.
  destruct (Hp d Hd) as (sys & n & m & a & f & Hprof & Hi).
  destruct (profile_fields sys n m a f) as (Hid & _ & _ & _ & _ & Hdata & Hct).
  rewrite <- Hprof in Hid, Hdata, Hct.
  exists (Multer.buffer f), (Multer.mimetype f). split; [done|].
  assert (Frontend.getUserImage (delete "image" d)
          = ObjectId.toHexString (Mongoose.fresh_id sys)) as ->.
  { unfold Frontend.getUserImage, Mongoose.id_field.
    by rewrite lookup_delete_ne, Hid. }
  pose proof (find_unique users _ d Hu Hd Hid) as Hfind.
  unfold Backend.get_user_image, Backend.get_user, Mongoose.findById.
  rewrite isValid_toHexString by apply fresh_id_length.
  rewrite cast_toHexString by apply fresh_id_length. cbn [negb].
  by rewrite Hfind, Hdata, Hct, content_type_image.
Qed.

End BackendMore.

(** ** Both stores *)

Section StoreMore.
Context `{Jwt.Primitives} `{Auth.Validator} `{Auth.UserModel}.


End StoreMore.

(** ** imageuploader/frontend.js *)

Section FrontendFacts.

Lemma note_empty key error (errs : gmap string string) :
  Frontend.note key error errs = ∅ -> error = EmptyString /\ errs = ∅.
Proof.
  unfold Frontend.note. destruct (JS.falsy error) eqn:He.
  - intros ->. split; [|done]. by destruct error.
  - intros Hins. by apply insert_non_empty in Hins.
Qed.

(** [validateForm] answers true only when the four checks are silent. *)
Lemma validateForm_true form image :
  Frontend.validateForm form image = true ->
  Frontend.validateName (Frontend.name form) = EmptyString
  /\ Frontend.validateMobile (Frontend.mobile form) = EmptyString
  /\ Frontend.validateAddress (Frontend.address form) = EmptyString
  /\ Frontend.validateImage image = EmptyString.
Proof.
  unfold Frontend.validateForm, Frontend.newErrors.
  intros Hsize%bool_decide_eq_true%map_size_empty_iff.
  apply note_empty in Hsize as [Hi Hsize]. apply note_empty in Hsize as [Ha Hsize].
  apply note_empty in Hsize as [Hm Hsize]. by apply note_empty in Hsize as [Hn _].
Qed.

Lemma validateName_silent n :
  Frontend.validateName n = EmptyString -> JS.trim n <> EmptyString.
Proof.
  unfold Frontend.validateName.
  destruct (JS.falsy n); [done|]. cbn [orb].
  destruct (JS.falsy (JS.trim n)) eqn:Ht; [done|]. intros _. by apply falsy_false.
Qed.

Lemma validateMobile_silent m :
  Frontend.validateMobile m = EmptyString -> JS.trim m <> EmptyString.
Proof.
  unfold Frontend.validateMobile.
  destruct (JS.falsy m); [done|]. cbn [orb].
  destruct (JS.falsy (JS.trim m)) eqn:Ht; [done|]. intros _. by apply falsy_false.
Qed.

Lemma validateAddress_silent a :
  Frontend.validateAddress a = EmptyString -> JS.trim a <> EmptyString.
Proof.
  unfold Frontend.validateAddress.
  destruct (JS.falsy a); [done|]. cbn [orb].
  destruct (JS.falsy (JS.trim a)) eqn:Ht; [done|]. intros _. by apply falsy_false.
Qed.

Lemma validateImage_silent image :
  Frontend.validateImage image = EmptyString ->
  exists f, image = Some f /\ JS.startsWith (Frontend.type f) "image/" = true
            /\ Frontend.size f <= 5 * 1024 * 1024.
Proof.
  destruct image as [f|]; cbn [Frontend.validateImage]; [|done].
  destruct (JS.startsWith (Frontend.type f) "image/") eqn:Hi; cbn [negb]; [|done].
  destruct (5 * 1024 * 1024 <? Frontend.size f) eqn:Hsz; [done|].
  intros _. exists f. split_and!; [done..|]. lia.
Qed.

Lemma part_of_image f :
  JS.startsWith (Frontend.type f) "image/" = true ->
  Multer.mimetype (Frontend.part f) = Frontend.type f.
Proof. unfold Frontend.part. cbn. by destruct (Frontend.type f). Qed.

(** X19. The form's check of the image is no stricter than the server's:
    a file that [upload.single('image')] takes when it arrives as the part
    of a form is one [validateImage] is silent about, so a file the form
    refuses for its type or its size would be refused by the server too. *)
Theorem server_accepts_only_what_the_form_accepts texts f :
  Multer.single Backend.upload "image"
    {| Multer.fields := texts; Multer.files := [Frontend.part f] |}
  = Express.Next (texts, Some (Frontend.part f)) ->
  Frontend.validateImage (Some f) = EmptyString.
Proof.
  intros [_ [[[=] _]|(g & [= <-] & _ & _ & Hi & Hsz)]]%single_Next.
  assert (JS.startsWith (Frontend.type f) "image/" = true) as Hty.
  { revert Hi. unfold Frontend.part. cbn [Multer.mimetype].
    by destruct (Frontend.type f). }
  unfold Frontend.validateImage. rewrite Hty. cbn [negb].
  replace (Multer.size (Frontend.part f)) with (Frontend.size f) in Hsz by done.
  destruct (5 * 1024 * 1024 <? Frontend.size f) eqn:Hlt; [lia|done].
Qed.


(** X21. A request that [handleSubmit] posts never meets the 400 answers
    of the handler: its texts are not blank after trimming and it carries
    the image, so with a named image the answer is 201 or 500. *)
Theorem submitted_forms_are_never_answered_400 sys form image req users :
  Frontend.handleSubmit form image = Some req ->
  (forall f, image = Some f -> Frontend.file_name f <> EmptyString) ->
  (exists n m a, Multer.fields req !! "name" = Some n
                 /\ Multer.fields req !! "mobile" = Some m
                 /\ Multer.fields req !! "address" = Some a
                 /\ JS.trim n <> EmptyString /\ JS.trim m <> EmptyString
                 /\ JS.trim a <> EmptyString)
  /\ (exists f, image = Some f /\ Multer.files req = [Frontend.part f])
  /\ (status (Backend.post_users sys req users).1 = 201
      \/ status (Backend.post_users sys req users).1 = 500).
Proof.
  unfold Frontend.handleSubmit.
  destruct (Frontend.validateForm form image) eqn:Hv; cbn [negb]; [|done].
  apply validateForm_true in Hv as (Hn%validateName_silent & Hm%validateMobile_silent
                                    & Ha%validateAddress_silent & Hi%validateImage_silent).
  destruct Hi as (f & -> & Hty & Hsz). intros [= <-] _.
  set (req := {| Multer.fields := _; Multer.files := _ |}).
  assert (Multer.fields req !! "name" = Some (JS.trim (Frontend.name form))) as Hfn
    by (subst req; cbn [Multer.fields]; by simplify_map_eq).
  assert (Multer.fields req !! "mobile" = Some (JS.trim (Frontend.mobile form))) as Hfm
    by (subst req; cbn [Multer.fields]; by simplify_map_eq).
  assert (Multer.fields req !! "address" = Some (JS.trim (Frontend.address form))) as Hfa
    by (subst req; cbn [Multer.fields]; by simplify_map_eq).
  split_and!.
  - exists (JS.trim (Frontend.name form)), (JS.trim (Frontend.mobile form)),
      (JS.trim (Frontend.address form)). by rewrite !trim_idem.
  - by exists f.
  - assert (JS.startsWith (Multer.mimetype (Frontend.part f)) "image/" = true) as Hty'
      by (by rewrite part_of_image).
    destruct (existsb (Mongoose.has_id (Mongoose.fresh_id sys)) users) eqn:Hfresh.
    + right. by rewrite (post_users_taken sys req (Frontend.part f) _ _ _ users
                           eq_refl eq_refl Hty' Hsz Hfn Hfm Hfa)
        by (by rewrite ?trim_idem).
    + left. by rewrite (post_users_created sys req (Frontend.part f) _ _ _ users
                          eq_refl eq_refl Hty' Hsz Hfn Hfm Hfa)
        by (by rewrite ?trim_idem).
Qed.

End FrontendFacts.

(** ** The further statements at sample inputs *)

Lemma plain_mac_key a k k' m :
  Plain.mac a k m = Plain.mac a k' m -> k +:+ "|" +:+ m = k' +:+ "|" +:+ m.
Proof.
  unfold Plain.mac. intros [= Hhex].
  apply (f_equal Plain.unhexs) in Hhex. rewrite !unhexs_hexs in Hhex.
  by injection Hhex.
Qed.

(** X1 at a body without a name. *)
Lemma signup_rejections_write_nothing_witness :
  status (Auth.signup Sample.env Sample.t0 Scene.nameless []).1 = 400
  /\ (Auth.signup Sample.env Sample.t0 Scene.nameless []).2 = [].
Proof.
  destruct (signup_rejections_write_nothing Sample.env Sample.t0 Scene.nameless [])
    as [Hbad _].
  destruct Hbad as (H400 & Hsame & _); [|by split].
  intros [Hname _]. apply Hname. reflexivity.
Defined.


(** X3 at Ann's signup with no secret in the environment. *)
Lemma signup_without_secret_stores_then_fails_witness :
  let stored := Read.account Sample.t0 "Ann" "ann@example.org" "123456" in
  Auth.signup Scene.no_secret Sample.t0 Sample.ann [] =
    (Auth.Message 500 true "Internal server error", [stored])
  /\ Auth.signup Scene.no_secret Sample.t1 Sample.ann [stored] =
      (Auth.Message 409 true "Email already in use", [stored]).
Proof.
  apply (signup_without_secret_stores_then_fails Scene.no_secret Sample.t0 Sample.t1
           Sample.ann []);
    first [reflexivity | split_and!; [discriminate | reflexivity | cbn; lia]].
Defined.

(** X4 at Ann's signup and her login a day later. *)
Lemma signup_then_login_witness :
  exists token view,
    Read.user_view (Auth.signup Sample.env Sample.t0 Sample.ann []).1 = Some view
    /\ view !! "email" = Some (VStr "ann@example.org")
    /\ Auth.login Sample.env Sample.t2 Scene.ann_login
         (Auth.signup Sample.env Sample.t0 Sample.ann []).2 =
        json 200 [("isError", JBool false); ("Message", JStr "Login success");
                  ("token", JStr token); ("user", JDoc view)].
Proof.
  apply (signup_then_login Sample.env Sample.t0 Sample.t2 Sample.ann Scene.ann_login []
           (Auth.signup Sample.env Sample.t0 Sample.ann []).1
           (Auth.signup Sample.env Sample.t0 Sample.ann []).2);
    first [reflexivity | apply surjective_pairing | by vm_compute].
Defined.

(** X5 at Ann's signup and a request a second before the token expires. *)
Lemma signup_token_opens_me_witness :
  exists token view,
    Read.token (Auth.signup Sample.env Sample.t0 Sample.ann []).1 = Some token
    /\ Read.user_view (Auth.signup Sample.env Sample.t0 Sample.ann []).1 = Some view
    /\ Auth.me Sample.env Sample.t1 (Some ("Bearer " +:+ token))
         (Auth.signup Sample.env Sample.t0 Sample.ann []).2 =
        (json 200 [("isError", JBool false); ("user", JDoc view)],
         (Auth.signup Sample.env Sample.t0 Sample.ann []).2).
Proof.
  apply (signup_token_opens_me Sample.env Sample.t0 Sample.t1 Sample.ann []
           (Auth.signup Sample.env Sample.t0 Sample.ann []).1
           (Auth.signup Sample.env Sample.t0 Sample.ann []).2 86400000);
    first [reflexivity | apply surjective_pairing | by vm_compute].
Defined.

(** X6 at a token for an account that is not stored. *)
Lemma me_with_a_valid_token_witness :
  exists token,
    Auth.signToken Sample.env Sample.t0 Scene.id0 "ann@example.org" = Ok token
    /\ Auth.me Sample.env Sample.t1 (Some ("Bearer " +:+ token)) [] =
        (Auth.Message 404 true "User not found", []).
Proof.
  apply (me_with_a_valid_token Sample.env Sample.t0 Sample.t1 Scene.id0
           "ann@example.org" 86400000 []); reflexivity.
Defined.

(** X7 at the view of Ann's signup. *)
Lemma user_views_carry_no_password_witness :
  let view := delete "password"
                (Read.account Sample.t0 "Ann" "ann@example.org" "123456") in
  Read.user_view (Auth.signup Sample.env Sample.t0 Sample.ann []).1 = Some view
  /\ view !! "password" = None.
Proof.
  intros view.
  assert (Read.user_view (Auth.signup Sample.env Sample.t0 Sample.ann []).1 = Some view)
    as Hview by (by vm_compute).
  split; [exact Hview|].
  apply (user_views_carry_no_password Sample.env Sample.t0 Sample.ann None [] view).
  left. exact Hview.
Defined.

(** X8 at a token presented a second before the day is over. *)
Lemma default_token_lifetime_witness :
  exists token,
    Auth.signToken Sample.env Sample.t0 Scene.id0 "ann@example.org" = Ok token
    /\ Auth.auth Sample.env Sample.t1 (Some ("Bearer " +:+ token)) =
        Express.Next {| Jwt.sub_id := Scene.id0; Jwt.sub_email := "ann@example.org";
                        Jwt.iat := 1700000000; Jwt.exp := Some 1700086400 |}.
Proof.
  apply (default_token_lifetime Sample.env Sample.t0 Sample.t1 Scene.id0
           "ann@example.org"); reflexivity.
Defined.

(** X9 at a token signed with "s3cret" and a gate that holds "other". *)
Lemma token_of_another_secret_rejected_witness :
  exists token,
    Auth.signToken Sample.env Sample.t0 Scene.id0 "ann@example.org" = Ok token
    /\ Auth.auth Scene.other_secret Sample.t1 (Some ("Bearer " +:+ token)) =
        Express.Respond (Auth.Message 401 true "Invalid/Expired token").
Proof.
  eexists. split; [reflexivity|].
  apply (token_of_another_secret_rejected Sample.env Scene.other_secret Sample.t0
           Sample.t1 Scene.id0 "ann@example.org"); [reflexivity|].
  intros m Hm%plain_mac_key. discriminate Hm.
Defined.



(** X12 at the same ingest. *)
Lemma ingest_then_metadata_witness :
  exists id n view,
    Backend.created_id (Backend.post_users Sample.t0 (Sample.form [Sample.png]) []).1
      = Some id
    /\ Multer.fields (Sample.form [Sample.png]) !! "name" = Some n
    /\ Backend.get_user (Backend.post_users Sample.t0 (Sample.form [Sample.png]) []).2 id
       = json 200 [("success", JBool true); ("data", JDoc view)]
    /\ view !! "name" = Some (VStr (JS.trim n))
    /\ view !! "image" = None
    /\ view ∈ Backend.find_all
                (Backend.post_users Sample.t0 (Sample.form [Sample.png]) []).2.
Proof.
  apply (ingest_then_metadata Sample.t0 (Sample.form [Sample.png]) []
           (Backend.post_users Sample.t0 (Sample.form [Sample.png]) []).1
           (Backend.post_users Sample.t0 (Sample.form [Sample.png]) []).2);
    first [reflexivity | apply surjective_pairing].
Defined.

(** X13 at Ann's profile and a second ingest a day later. *)
Lemma ingest_keeps_earlier_answers_witness :
  let users' :=
    (Backend.post_users Sample.t2 (Sample.form [Sample.png]) [Scene.ann_profile]).2 in
  Mongoose.findById users' Scene.id0 = Ok (Some Scene.ann_profile)
  /\ Backend.get_user users' Scene.id0 = Backend.get_user [Scene.ann_profile] Scene.id0
  /\ Backend.get_user_image Sample.backend_env users' Scene.id0 =
      Backend.get_user_image Sample.backend_env [Scene.ann_profile] Scene.id0.
Proof.
  apply (ingest_keeps_earlier_answers Sample.backend_env Sample.t2
           (Sample.form [Sample.png]) [Scene.ann_profile] Scene.id0 Scene.ann_profile).
  by vm_compute.
Defined.


(** X15 at a form with the PNG twice. *)
Lemma extra_or_misplaced_files_rejected_witness :
  exists e,
    Multer.single Backend.upload "image" (Sample.form [Sample.png; Sample.png])
      = Express.NextErr e
    /\ Backend.post_users Sample.t0 (Sample.form [Sample.png; Sample.png]) [] =
        ({| status := 500; headers := []; body := ErrorPage e |}, []).
Proof.
  apply (extra_or_misplaced_files_rejected Sample.t0
           (Sample.form [Sample.png; Sample.png]) []).
  - repeat constructor; discriminate.
  - left. cbn. lia.
Defined.

(** X16 at a second ingest a day after Ann's. *)
Lemma newest_ingest_listed_first_witness :
  exists view,
    Backend.find_all
      (Backend.post_users Sample.t2 (Sample.form [Sample.png]) [Scene.ann_profile]).2
      = view :: Backend.find_all [Scene.ann_profile]
    /\ Backend.created_id
         (Backend.post_users Sample.t2 (Sample.form [Sample.png]) [Scene.ann_profile]).1
       = Some (Frontend.getUserImage view)
    /\ Backend.createdAt view = Some (now Sample.t2)
    /\ view !! "image" = None.
Proof.
  apply (newest_ingest_listed_first Sample.t2 (Sample.form [Sample.png])
           [Scene.ann_profile]
           (Backend.post_users Sample.t2 (Sample.form [Sample.png]) [Scene.ann_profile]).1
           (Backend.post_users Sample.t2 (Sample.form [Sample.png]) [Scene.ann_profile]).2).
  - apply surjective_pairing.
  - reflexivity.
  - constructor; [|constructor]. intros t Ht. vm_compute in Ht.
    injection Ht as <-. reflexivity.
Defined.

(** X17 at the collection Ann's ingest leaves. *)
Lemma listed_profiles_open_by_their_id_witness :
  let users := (Backend.post_users Sample.t0 (Sample.form [Sample.png]) []).2 in
  let view := delete "image" Scene.ann_profile in
  exists data ct,
    JS.startsWith ct "image/" = true
    /\ Backend.get_user_image Sample.backend_env users (Frontend.getUserImage view) =
        {| status := 200; headers := [("Content-Type", ct)]; body := Raw data |}
    /\ Backend.get_user users (Frontend.getUserImage view) =
        json 200 [("success", JBool true); ("data", JDoc view)].
Proof.
  intros users view.
  apply (listed_profiles_open_by_their_id Sample.backend_env users view).
  - apply (Read.ingested_post Sample.t0 (Sample.form [Sample.png]) []), Read.ingested_nil.
  - vm_compute. apply list_elem_of_here.
Defined.


(** X19 at the photo Ann picks. *)
Lemma server_accepts_only_what_the_form_accepts_witness :
  Frontend.validateImage (Some Scene.photo) = EmptyString.
Proof.
  apply (server_accepts_only_what_the_form_accepts ∅ Scene.photo). reflexivity.
Defined.


(** X21 at the same form. *)
Lemma submitted_forms_are_never_answered_400_witness :
  (exists n m a, Multer.fields Scene.posted !! "name" = Some n
                 /\ Multer.fields Scene.posted !! "mobile" = Some m
                 /\ Multer.fields Scene.posted !! "address" = Some a
                 /\ JS.trim n <> EmptyString /\ JS.trim m <> EmptyString
                 /\ JS.trim a <> EmptyString)
  /\ (exists f, Some Scene.photo = Some f /\ Multer.files Scene.posted = [Frontend.part f])
  /\ (status (Backend.post_users Sample.t0 Scene.posted []).1 = 201
      \/ status (Backend.post_users Sample.t0 Scene.posted []).1 = 500).
Proof.
  apply (submitted_forms_are_never_answered_400 Sample.t0 Scene.typed
           (Some Scene.photo) Scene.posted []).
  - by vm_compute.
  - intros f [= <-]. discriminate.
Defined.
